(** * Bookstore Integration API: order placement over the mock services

    A shallow embedding of [app.py] and of the three mock services
    ([services/inventory_service.py], [services/sales_service.py],
    [services/delivery_service.py]), and the properties of the
    order-placement workflow proved over it.

    Python values that travel through the handlers unchanged (request
    fields, the dictionaries stored in the ledgers, response bodies) are
    kept as JSON values; numbers are Python's, [int]s of any size and
    binary64 floats, with its mixed comparison and subtraction.  The three module-level service objects form the
    state that every handler threads; each in-place mutation is recorded in
    a trace, so that the order of the effects of one handler can be stated. *)

From stdpp Require Import base list strings numbers pretty.
From Stdlib Require PrimFloat FloatOps SpecFloat.

#[local] Set Warnings "-register-all".

(** ** JSON values as Python sees them after [json.load] / [get_json] *)

(** [JNull] is Python's [None].  A JSON number without fraction or
    exponent is an [int]; any other, and the literals [NaN], [Infinity]
    and [-Infinity] that Python's parser takes, is a [float], an IEEE
    binary64 value. *)
Inductive Json : Type :=
  | JNull
  | JBool (b : bool)
  | JInt (n : Z)
  | JFloat (f : PrimFloat.float)
  | JStr (s : string)
  | JList (l : list Json)
  | JDict (d : list (string * Json)).

(** Python truthiness, as used by [not x] and [all([...])]. *)
Definition truthy (v : Json) : bool :=
  match v with
  | JNull => false
  | JBool b => b
  | JInt n => negb (n =? 0)%Z
  | JFloat f => negb (PrimFloat.eqb f PrimFloat.zero)
  | JStr s => negb (String.eqb s "")
  | JList l => match l with [] => false | _ => true end
  | JDict d => match d with [] => false | _ => true end
  end.

(** [all(vs)] on a list of values. *)
Definition py_all (vs : list Json) : bool := forallb truthy vs.

(** Key lookup in a dictionary held as an association list. *)
Fixpoint dict_lookup (d : list (string * Json)) (k : string) : option Json :=
  match d with
  | [] => None
  | (k', v) :: d' => if String.eqb k' k then Some v else dict_lookup d' k
  end.

(** The exceptions the handlers can run into. *)
Inductive PyExn : Type :=
  | AttributeError
  | TypeError
  | KeyError
  | OverflowError.

Inductive Result (A : Type) : Type :=
  | Ok (a : A)
  | Raise (e : PyExn).
Arguments Ok {A} a.
Arguments Raise {A} e.

(** [d.get(k)] on a dictionary: an absent key gives [None]. *)
Definition dict_get (d : list (string * Json)) (k : string) : Json :=
  default JNull (dict_lookup d k).

(** [data.get(k)]: only a dict has [.get]. *)
Definition py_get (data : Json) (k : string) : Result Json :=
  match data with
  | JDict d => Ok (dict_get d k)
  | _ => Raise AttributeError
  end.

(** [data[k]] with a string key. *)
Definition py_getitem (data : Json) (k : string) : Result Json :=
  match data with
  | JDict d =>
      match dict_lookup d k with
      | Some v => Ok v
      | None => Raise KeyError
      end
  | _ => Raise TypeError
  end.

(** ** Numbers *)

(** A Python number: an [int] of any size or a [float]. *)
Inductive PyNum : Type :=
  | PInt (n : Z)
  | PFloat (f : PrimFloat.float).

(** The integer a value is when it is an [int]; [bool] is a subclass of
    [int]. *)
Definition as_int (v : Json) : option Z :=
  match v with
  | JInt n => Some n
  | JBool b => Some (Z.b2z b)
  | _ => None
  end.

(** The number a value is in arithmetic and ordering; every JSON type
    other than number and boolean makes [>=] and [-=] against a number
    raise [TypeError]. *)
Definition as_num (v : Json) : option PyNum :=
  match v with
  | JInt n => Some (PInt n)
  | JBool b => Some (PInt (Z.b2z b))
  | JFloat f => Some (PFloat f)
  | _ => None
  end.

(** [float(n)] for an [int]: the nearest binary64 value, ties to even;
    [None] stands for [OverflowError], raised when that value is not
    finite. *)
Definition float_of_Z (n : Z) : option PrimFloat.float :=
  match SpecFloat.binary_normalize FloatOps.prec FloatOps.emax n 0 false with
  | SpecFloat.S754_infinity _ => None
  | sf => Some (FloatOps.SF2Prim sf)
  end.

(** An [int] against the exact value of a [float], the way Python
    orders the two without converting either; [None] when the float is
    NaN. *)
Definition Z_compare_float (n : Z) (f : PrimFloat.float)
  : option comparison :=
  match FloatOps.Prim2SF f with
  | SpecFloat.S754_nan => None
  | SpecFloat.S754_zero _ => Some (n ?= 0)%Z
  | SpecFloat.S754_infinity sign => Some (if sign then Gt else Lt)
  | SpecFloat.S754_finite sign m e =>
      let v := if sign then Z.neg m else Z.pos m in
      match e with
      | Z.neg k => Some (n * 2 ^ Z.pos k ?= v)%Z
      | _ => Some (n ?= v * 2 ^ e)%Z
      end
  end.

(** [a >= b] on numbers. *)
Definition num_ge (a b : PyNum) : bool :=
  match a, b with
  | PInt x, PInt y => (y <=? x)%Z
  | PFloat x, PFloat y => PrimFloat.leb y x
  | PInt x, PFloat y =>
      match Z_compare_float x y with
      | Some Eq | Some Gt => true
      | Some Lt | None => false
      end
  | PFloat x, PInt y =>
      match Z_compare_float y x with
      | Some Eq | Some Lt => true
      | Some Gt | None => false
      end
  end.

(** [a - b] on numbers: exact on two [int]s; otherwise the [int]
    operand, if any, is converted first, which can overflow. *)
Definition num_sub (a b : PyNum) : option PyNum :=
  match a, b with
  | PInt x, PInt y => Some (PInt (x - y))
  | PFloat x, PFloat y => Some (PFloat (PrimFloat.sub x y))
  | PInt x, PFloat y =>
      x' ← float_of_Z x; Some (PFloat (PrimFloat.sub x' y))
  | PFloat x, PInt y =>
      y' ← float_of_Z y; Some (PFloat (PrimFloat.sub x y'))
  end.

(** [stock >= qty] for a stock that is a number. *)
Definition py_ge (stock : PyNum) (qty : Json) : Result bool :=
  match as_num qty with
  | Some q => Ok (num_ge stock q)
  | None => Raise TypeError
  end.

(** [stock - qty] for a stock that is a number. *)
Definition py_sub (stock : PyNum) (qty : Json) : Result PyNum :=
  match as_num qty with
  | Some q =>
      match num_sub stock q with
      | Some n => Ok n
      | None => Raise OverflowError
      end
  | None => Raise TypeError
  end.

(** The JSON value of a number. *)
Definition num_json (n : PyNum) : Json :=
  match n with
  | PInt z => JInt z
  | PFloat f => JFloat f
  end.

(** [s == v] for a string [s]: a string equals only an equal string. *)
Definition str_eq (s : string) (v : Json) : bool :=
  match v with
  | JStr s' => String.eqb s s'
  | _ => false
  end.

(** ** Inventory *)

(** Modelled from the spec: [mock_data/inventory.json], the seed file that
    [InventoryService.__init__] loads, is not among the sources; a book has
    the shape the data model gives it, a string [id], a string [title], a
    [stock] and further descriptive fields.  The stock is an integer in
    the seed; it is a number here because [book["stock"] -= qty] can
    leave a float. *)
Record Book : Type := mkBook {
  id : string;
  title : string;
  stock : PyNum;
  details : list (string * Json)
}.

Definition set_stock (b : Book) (n : PyNum) : Book :=
  {| id := id b; title := title b; stock := n; details := details b |}.

(** The dictionary a book is, for [jsonify]. *)
Definition book_json (b : Book) : Json :=
  JDict (("id", JStr (id b)) :: ("title", JStr (title b))
         :: ("stock", num_json (stock b)) :: details b).

Module InventoryService.

(** [self.inventory] *)
Definition get_all_books (inventory : list Book) : list Book := inventory.

(** [next((b for b in self.inventory if b["id"] == book_id), None)]:
    the first book whose id equals [book_id].  The result is a reference
    into the list, kept as the position together with the book found. *)
Definition get_book (inventory : list Book) (book_id : Json)
  : option (nat * Book) :=
  list_find (λ b, str_eq (id b) book_id = true) inventory.

(** [book and book["stock"] >= qty]: [None] when there is no such book,
    otherwise the comparison (a book dictionary is never empty). *)
Definition is_in_stock (inventory : list Book) (book_id qty : Json)
  : Result Json :=
  match get_book inventory book_id with
  | None => Ok JNull
  | Some (_, book) =>
      match py_ge (stock book) qty with
      | Ok r => Ok (JBool r)
      | Raise e => Raise e
      end
  end.

(** [if book: book["stock"] -= qty], the update happening in place in
    the list. *)
Definition reduce_stock (inventory : list Book) (book_id qty : Json)
  : Result (list Book) :=
  match get_book inventory book_id with
  | None => Ok inventory
  | Some (i, book) =>
      match py_sub (stock book) qty with
      | Ok n => Ok (<[i := set_stock book n]> inventory)
      | Raise e => Raise e
      end
  end.

End InventoryService.

(** ** Sales and delivery ledgers *)

Module SalesService.

(** The dictionary literal of [create_order]; [uuid] is
    [str(uuid.uuid4())]. *)
Definition new_order (uuid : string) (book_id qty customer : Json) : Json :=
  JDict [("order_id", JStr uuid); ("book_id", book_id);
         ("quantity", qty); ("customer", customer);
         ("status", JStr "PAID")].

(** [self.sales.append(order); return order] *)
Definition create_order (sales : list Json) (uuid : string)
    (book_id qty customer : Json) : Json * list Json :=
  let order := new_order uuid book_id qty customer in
  (order, sales ++ [order]).

End SalesService.

Module DeliveryService.

(** [record_delivery(data)]: both subscriptions are evaluated while the
    dictionary literal is built, before anything is appended. *)
Definition record_delivery (deliveries : list Json) (uuid : string)
    (data : Json) : Result (Json * list Json) :=
  match py_getitem data "order_id" with
  | Raise e => Raise e
  | Ok order_id =>
      match py_getitem data "address" with
      | Raise e => Raise e
      | Ok address =>
          let delivery :=
            JDict [("delivery_id", JStr uuid); ("order_id", order_id);
                   ("address", address);
                   ("status", JStr "READY_FOR_DISPATCH")] in
          Ok (delivery, deliveries ++ [delivery])
      end
  end.

End DeliveryService.

(** ** The process state and the handler monad *)

(** The three service objects created at import time, together with the
    number of identifiers [uuid.uuid4()] has handed out so far. *)
Record State : Type := mkState {
  inventory : list Book;
  sales : list Json;
  deliveries : list Json;
  uuid_calls : nat
}.

Definition set_inventory (s : State) (inv : list Book) : State :=
  {| inventory := inv; sales := sales s; deliveries := deliveries s;
     uuid_calls := uuid_calls s |}.

Definition set_sales (s : State) (l : list Json) : State :=
  {| inventory := inventory s; sales := l; deliveries := deliveries s;
     uuid_calls := uuid_calls s |}.

Definition set_deliveries (s : State) (l : list Json) : State :=
  {| inventory := inventory s; sales := sales s; deliveries := l;
     uuid_calls := uuid_calls s |}.

Definition set_uuid_calls (s : State) (n : nat) : State :=
  {| inventory := inventory s; sales := sales s; deliveries := deliveries s;
     uuid_calls := n |}.

(** What running a computation from a state gives: its value or the
    exception it raised, the state it leaves, and the states the process
    went through, one per mutation, oldest first. *)
Record Run (A : Type) : Type := mkRun {
  outcome : Result A;
  final : State;
  trace : list State
}.
Arguments mkRun {A} _ _ _.
Arguments outcome {A} _.
Arguments final {A} _.
Arguments trace {A} _.

Definition M (A : Type) : Type := State → Run A.

Definition ret {A} (a : A) : M A := λ s, mkRun (Ok a) s [].

Definition raise {A} (e : PyExn) : M A := λ s, mkRun (Raise e) s [].

Definition bind {A B} (m : M A) (f : A → M B) : M B := λ s,
  let r := m s in
  match outcome r with
  | Ok a =>
      let r' := f a (final r) in
      mkRun (outcome r') (final r') (trace r ++ trace r')
  | Raise e => mkRun (Raise e) (final r) (trace r)
  end.

Definition get : M State := λ s, mkRun (Ok s) s [].

Definition put (s' : State) : M unit := λ _, mkRun (Ok tt) s' [s'].

Definition lift {A} (r : Result A) : M A :=
  match r with
  | Ok a => ret a
  | Raise e => raise e
  end.

Declare Scope py_scope.
Delimit Scope py_scope with py.
Notation "x <- m ;; k" := (bind m (λ x, k))
  (at level 100, m at next level, right associativity) : py_scope.
Notation "m ;;; k" := (bind m (λ _, k))
  (at level 100, right associativity) : py_scope.
Local Open Scope py_scope.

(** ** app.py *)

(** What a view function returns: the value it hands to [jsonify] and
    the status code.  Turning the value into text is Flask's part. *)
Record Response : Type := mkResponse {
  body : Json;
  code : Z
}.

(** What a handler reads from Flask's [request]: the value of
    [request.headers.get("x-api-key")] and that of [request.get_json()].
    A request that Flask itself turns down inside [get_json] (not JSON,
    or malformed) never comes back to the handler and is not a [Request]
    here. *)
Record Request : Type := mkRequest {
  x_api_key : option string;
  get_json : Json
}.

Definition Handler : Type := Request → M Response.

Definition error (msg : string) : Json := JDict [("error", JStr msg)].

Section App.

(** [API_KEY = os.getenv("API_KEY")], and the identifiers that
    [uuid.uuid4()] returns, in the order of the calls. *)
Variable API_KEY : string.
Variable uuid4_str : nat → string.

(** [str(uuid.uuid4())] *)
Definition uuid4 : M string :=
  s <- get ;;
  put (set_uuid_calls s (S (uuid_calls s))) ;;;
  ret (uuid4_str (uuid_calls s)).

Definition require_api_key (func : Handler) : Handler := λ request,
  let key := x_api_key request in
  if bool_decide (key ≠ Some API_KEY)
  then ret (mkResponse (error "Unauthorized - Invalid API Key") 401)
  else func request.

(** The methods of the service objects, on the process state. *)
Definition inventory_get_all_books : M (list Book) :=
  s <- get ;; ret (InventoryService.get_all_books (inventory s)).

Definition inventory_get_book (book_id : Json) : M (option (nat * Book)) :=
  s <- get ;; ret (InventoryService.get_book (inventory s) book_id).

Definition inventory_is_in_stock (book_id qty : Json) : M Json :=
  s <- get ;; lift (InventoryService.is_in_stock (inventory s) book_id qty).

(** Nothing is written when no book is found. *)
Definition inventory_reduce_stock (book_id qty : Json) : M unit :=
  s <- get ;;
  inv <- lift (InventoryService.reduce_stock (inventory s) book_id qty) ;;
  match InventoryService.get_book (inventory s) book_id with
  | None => ret tt
  | Some _ => put (set_inventory s inv)
  end.

Definition sales_create_order (book_id qty customer : Json) : M Json :=
  uuid <- uuid4 ;;
  s <- get ;;
  let '(order, l) :=
    SalesService.create_order (sales s) uuid book_id qty customer in
  put (set_sales s l) ;;;
  ret order.

Definition delivery_record_delivery (data : Json) : M Json :=
  uuid <- uuid4 ;;
  s <- get ;;
  r <- lift (DeliveryService.record_delivery (deliveries s) uuid data) ;;
  put (set_deliveries s (snd r)) ;;;
  ret (fst r).

Definition get_all_books : Handler := λ request,
  books <- inventory_get_all_books ;;
  ret (mkResponse (JList (book_json <$> books)) 200).

Definition get_book_details (book_id : string) : Handler := λ request,
  book <- inventory_get_book (JStr book_id) ;;
  match book with
  | None => ret (mkResponse (error "Book not found") 404)
  | Some (_, b) => ret (mkResponse (book_json b) 200)
  end.

Definition place_order : Handler := λ request,
  let data := get_json request in
  if negb (truthy data)
  then ret (mkResponse (error "JSON body is required") 400)
  else
    book_id <- lift (py_get data "book_id") ;;
    quantity <- lift (py_get data "quantity") ;;
    customer <- lift (py_get data "customer") ;;
    if negb (py_all [book_id; quantity; customer])
    then ret (mkResponse
                (error "Missing fields: book_id, quantity, customer") 400)
    else
      ok <- inventory_is_in_stock book_id quantity ;;
      if negb (truthy ok)
      then ret (mkResponse (error "Insufficient stock") 400)
      else
        order <- sales_create_order book_id quantity customer ;;
        inventory_reduce_stock book_id quantity ;;;
        ret (mkResponse order 201).

Definition update_delivery : Handler := λ request,
  let data := get_json request in
  if negb (truthy data)
  then ret (mkResponse (error "JSON body is required") 400)
  else
    order_id <- lift (py_get data "order_id") ;;
    address <- lift (py_get data "address") ;;
    if negb (truthy order_id) || negb (truthy address)
    then ret (mkResponse (error "Missing fields: order_id, address") 400)
    else
      update <- delivery_record_delivery data ;;
      ret (mkResponse update 201).

Definition home : Handler := λ request,
  ret (mkResponse
         (JDict [("message", JStr "Bookstore Integration API Running")])
         200).

(** The routing table of [app.py]. *)
Inductive Route : Type :=
  | GET_api_books
  | GET_api_books_id (book_id : string)
  | POST_api_orders
  | POST_api_delivery_update
  | GET_root.

(** The routes whose view function carries [@require_api_key]. *)
Definition protected (r : Route) : bool :=
  match r with
  | GET_root => false
  | _ => true
  end.

Definition view (r : Route) : Handler :=
  match r with
  | GET_api_books => require_api_key get_all_books
  | GET_api_books_id book_id => require_api_key (get_book_details book_id)
  | POST_api_orders => require_api_key place_order
  | POST_api_delivery_update => require_api_key update_delivery
  | GET_root => home
  end.

(** The process serving requests one after the other; a request whose
    handler raised leaves the state the handler had reached. *)
Definition serve1 (s : State) (c : Route * Request) : State :=
  final (view (fst c) (snd c) s).

Definition serve (s : State) (calls : list (Route * Request)) : State :=
  foldl serve1 s calls.


End App.

(** ** Named states and invariants *)

(** The states a successful order goes through: the identifier is drawn,
    the order is appended to the sales ledger, the stock of the book found
    is written. *)
Definition order_drawn (s : State) : State :=
  set_uuid_calls s (S (uuid_calls s)).

Definition order_recorded (s : State) (order : Json) : State :=
  set_sales (order_drawn s) (sales s ++ [order]).

Definition order_stocked (s : State) (order : Json) (i : nat) (b : Book)
    (n : PyNum) : State :=
  set_inventory (order_recorded s order) (<[i := set_stock b n]> (inventory s)).


(** Every stock is an integer, and none is below 0. *)
Definition stock_int_nonneg (s : State) : Prop :=
  Forall (λ b, ∃ n, stock b = PInt n ∧ (0 ≤ n)%Z) (inventory s).

(** The quantity of the body, if the body is an object, is no float. *)
Definition quantity_no_float (request : Request) : Prop :=
  ∀ d f, get_json request = JDict d → dict_get d "quantity" ≠ JFloat f.

(** The three fields [place_order] reads from the body. *)
Definition order_fields : list string := ["book_id"; "quantity"; "customer"].

(** The responses of the error paths. *)
Definition unauthorized : Response :=
  mkResponse (error "Unauthorized - Invalid API Key") 401.

Definition insufficient_stock : Response :=
  mkResponse (error "Insufficient stock") 400.

Definition missing_fields : Response :=
  mkResponse (error "Missing fields: book_id, quantity, customer") 400.

(** The reading of "every order created has a positive integer
    quantity" on the handler: the order returned with a 201 carries an
    integer quantity above 0. *)
Definition order_quantity_positive (API_KEY : string)
    (uuid4_str : nat → string) : Prop :=
  ∀ request s resp,
    outcome (view API_KEY uuid4_str POST_api_orders request s) = Ok resp →
    code resp = 201%Z →
    ∃ q, py_getitem (body resp) "quantity" = Ok (JInt q) ∧ (0 < q)%Z.

(** ** A concrete run: one book [b1] with 5 copies *)

Definition example_key : string := "secret".

Definition example_uuid4 (n : nat) : string := "uuid-" +:+ pretty n.

Definition example_book : Book := mkBook "b1" "Book One" (PInt 5) [].

Definition example_seed : State := mkState [example_book] [] [] 0.

Definition order_body (book_id quantity customer : Json) : Json :=
  JDict [("book_id", book_id); ("quantity", quantity);
         ("customer", customer)].

Definition order_request (book_id : string) (quantity : Z)
    (customer : string) : Request :=
  mkRequest (Some example_key)
    (order_body (JStr book_id) (JInt quantity) (JStr customer)).

(** Five requests in a row: a listing without a key, an order for all
    five copies, the same order again, a delivery for it, a lookup. *)
Definition example_calls : list (Route * Request) :=
  [(GET_api_books, mkRequest None JNull);
   (POST_api_orders, order_request "b1" 5 "alice");
   (POST_api_orders, order_request "b1" 5 "alice");
   (POST_api_delivery_update,
    mkRequest (Some example_key)
      (JDict [("order_id", JStr "uuid-0"); ("address", JStr "1 Main St")]));
   (GET_api_books_id "b1", mkRequest (Some example_key) JNull)].

(** ** Quantities and records used to state what a run keeps *)

(** The dictionary literal of [record_delivery], with the two values it
    reads from [data]. *)
Definition new_delivery (uuid : string) (order_id address : Json) : Json :=
  JDict [("delivery_id", JStr uuid); ("order_id", order_id);
         ("address", address); ("status", JStr "READY_FOR_DISPATCH")].

(** The copies a book holds when its stock is an integer. *)
Definition stock_int (b : Book) : Z :=
  match stock b with
  | PInt n => n
  | PFloat _ => 0
  end.

(** The copies held by the whole inventory. *)
Definition total_stock (inv : list Book) : Z :=
  foldr (λ b acc, (stock_int b + acc)%Z) 0%Z inv.


(** The float that is [m] times 2 to the [e]. *)
Definition float_lit (m e : Z) : PrimFloat.float :=
  FloatOps.SF2Prim
    (SpecFloat.binary_normalize FloatOps.prec FloatOps.emax m e false).

(** An order whose quantity is any JSON value. *)
Definition order_request_json (book_id : string) (quantity : Json)
    (customer : string) : Request :=
  mkRequest (Some example_key)
    (order_body (JStr book_id) quantity (JStr customer)).

(** Two orders for [b1]: one for minus infinity copies, one for
    infinity. *)
Definition infinite_calls : list (Route * Request) :=
  [(POST_api_orders,
    order_request_json "b1" (JFloat PrimFloat.neg_infinity) "alice");
   (POST_api_orders,
    order_request_json "b1" (JFloat PrimFloat.infinity) "alice")].

(** The copies an entry of the sales ledger stands for: its ["quantity"]
    when that is a number, nothing otherwise. *)
Definition order_quantity (order : Json) : Z :=
  match py_getitem order "quantity" with
  | Ok v => default 0%Z (as_int v)
  | Raise _ => 0%Z
  end.

Definition total_ordered (orders : list Json) : Z :=
  foldr (λ o acc, (order_quantity o + acc)%Z) 0%Z orders.

(** What never changes in a book: everything but its stock. *)
Definition catalogue_entry (b : Book) : string * string * list (string * Json) :=
  (id b, title b, details b).

(** The routes registered for [GET]. *)
Definition is_get (r : Route) : bool :=
  match r with
  | GET_api_books | GET_api_books_id _ | GET_root => true
  | POST_api_orders | POST_api_delivery_update => false
  end.

(** The key under which a POST route returns the identifier it drew. *)
Definition id_field (r : Route) : string :=
  match r with
  | POST_api_delivery_update => "delivery_id"
  | _ => "order_id"
  end.

Definition missing_body : Response :=
  mkResponse (error "JSON body is required") 400.

Definition missing_delivery_fields : Response :=
  mkResponse (error "Missing fields: order_id, address") 400.

Definition delivery_request (order_id address : Json) : Request :=
  mkRequest (Some example_key)
    (JDict [("order_id", order_id); ("address", address)]).

(** ** Facts about the Python primitives *)

Lemma str_eq_true (s : string) (v : Json) : str_eq s v = true ↔ v = JStr s.
Proof.
  destruct v; simpl; try (split; [discriminate | intros [=]]).
  rewrite String.eqb_eq. split; [intros -> | intros [=]]; congruence.
Qed.

Lemma as_int_truthy (v : Json) (q : Z) :
  as_int v = Some q → truthy v = true → q ≠ 0%Z.
Proof.
  destruct v as [|[]|n| | | |]; simpl; intros [= <-]; try discriminate.
  destruct (Z.eqb_spec n 0); [discriminate | done].
Qed.

Lemma as_int_as_num (v : Json) (q : Z) :
  as_int v = Some q → as_num v = Some (PInt q).
Proof. destruct v; simpl; by intros [= <-]. Qed.

Lemma as_num_no_float (v : Json) (n : PyNum) :
  (∀ f, v ≠ JFloat f) → as_num v = Some n →
  ∃ q, as_int v = Some q ∧ n = PInt q.
Proof.
  intros Hnf. destruct v as [| | |f| | |]; simpl; intros [= <-]; eauto.
  by destruct (Hnf f).
Qed.

Lemma py_ge_int (n : Z) (v : Json) (q : Z) :
  as_int v = Some q → py_ge (PInt n) v = Ok (q <=? n)%Z.
Proof. intros H. unfold py_ge. by rewrite (as_int_as_num _ _ H). Qed.

Lemma py_sub_int (n : Z) (v : Json) (q : Z) :
  as_int v = Some q → py_sub (PInt n) v = Ok (PInt (n - q)).
Proof. intros H. unfold py_sub. by rewrite (as_int_as_num _ _ H). Qed.

(** Once [>=] has answered, [-] cannot raise [TypeError]. *)
Lemma py_sub_after_ge (st : PyNum) (v : Json) (r : bool) :
  py_ge st v = Ok r →
  (∃ n, py_sub st v = Ok n) ∨ py_sub st v = Raise OverflowError.
Proof.
  unfold py_ge, py_sub. destruct (as_num v) as [q|]; [|discriminate].
  intros _. destruct (num_sub st q); eauto.
Qed.

(** ** The inventory service *)

Section Inventory.

Import InventoryService.

Implicit Types (inv : list Book) (b : Book) (i : nat) (book_id qty : Json).
Implicit Types (n q : Z).

(** [get_book] finds the first book of the list carrying the id. *)
Lemma get_book_Some inv book_id i b :
  get_book inv book_id = Some (i, b) ↔
    inv !! i = Some b ∧ book_id = JStr (id b) ∧
    ∀ j b', inv !! j = Some b' → j < i → id b' ≠ id b.
Proof.
  unfold get_book. rewrite list_find_Some. split.
  - intros (Hi & Hb & Hmin). apply str_eq_true in Hb.
    split_and!; [done..|]. intros j b' Hj Hlt Heq.
    apply (Hmin j b' Hj Hlt). apply str_eq_true. congruence.
  - intros (Hi & -> & Hmin). split_and!; [done| by apply str_eq_true|].
    intros j b' Hj Hlt Heq%str_eq_true. injection Heq as Heq.
    by apply (Hmin j b' Hj Hlt).
Qed.

Lemma get_book_None inv book_id :
  get_book inv book_id = None ↔ ∀ b, b ∈ inv → book_id ≠ JStr (id b).
Proof.
  unfold get_book. rewrite list_find_None, list.Forall_forall.
  split; intros H b Hb; specialize (H b Hb); by rewrite str_eq_true in *.
Qed.

Lemma get_book_lookup inv book_id i b :
  get_book inv book_id = Some (i, b) → inv !! i = Some b.
Proof. by intros (? & _)%get_book_Some. Qed.

(** Changing only the stock of the book found does not change which
    book is found. *)
Lemma get_book_set_stock inv book_id i b (n : PyNum) :
  get_book inv book_id = Some (i, b) →
  get_book (<[i := set_stock b n]> inv) book_id = Some (i, set_stock b n).
Proof.
  rewrite !get_book_Some. intros (Hi & -> & Hmin). split_and!.
  - apply list_lookup_insert_eq. by eapply lookup_lt_Some.
  - done.
  - intros j b' Hj Hlt. rewrite list_lookup_insert_ne in Hj by lia.
    simpl. by eapply Hmin.
Qed.



End Inventory.

(** ** The handlers, run symbolically *)

Section Handlers.

Context (API_KEY : string) (uuid4_str : nat → string).

Local Open Scope py_scope.

Implicit Types (s : State) (request : Request) (d : list (string * Json)).
Implicit Types (i : nat) (b : Book) (n q : Z).

Lemma require_api_key_valid (func : Handler) request :
  x_api_key request = Some API_KEY →
  require_api_key API_KEY func request = func request.
Proof.
  intros H. unfold require_api_key. rewrite H.
  by rewrite bool_decide_eq_false_2 by (intros Hne; by apply Hne).
Qed.

Lemma require_api_key_invalid (func : Handler) request s :
  x_api_key request ≠ Some API_KEY →
  require_api_key API_KEY func request s =
    mkRun (Ok (mkResponse (error "Unauthorized - Invalid API Key") 401)) s [].
Proof.
  intros H. unfold require_api_key.
  by rewrite bool_decide_eq_true_2.
Qed.

(** Running a sequence: the laws of [bind] at a state. *)
Lemma bind_Ok {A B} (m : M A) (f : A → M B) s a s' tr :
  m s = mkRun (Ok a) s' tr →
  bind m f s =
    mkRun (outcome (f a s')) (final (f a s')) (tr ++ trace (f a s')).
Proof. intros H. unfold bind. by rewrite H. Qed.

Lemma bind_Raise {A B} (m : M A) (f : A → M B) s e s' tr :
  m s = mkRun (Raise e) s' tr → bind m f s = mkRun (Raise e) s' tr.
Proof. intros H. unfold bind. by rewrite H. Qed.

Lemma run_eta {A} (r : Run A) : mkRun (outcome r) (final r) (trace r) = r.
Proof. by destruct r. Qed.

Lemma bind_pure {A B} (m : M A) (f : A → M B) s a :
  m s = mkRun (Ok a) s [] → bind m f s = f a s.
Proof. intros H. rewrite (bind_Ok _ _ _ _ _ _ H). apply run_eta. Qed.

Lemma lift_Ok {A} (a : A) s : lift (Ok a) s = mkRun (Ok a) s [].
Proof. done. Qed.

Lemma lift_Raise {A} e s : lift (A := A) (Raise e) s = mkRun (Raise e) s [].
Proof. done. Qed.

Lemma inventory_is_in_stock_run book_id qty s :
  inventory_is_in_stock book_id qty s =
    mkRun (InventoryService.is_in_stock (inventory s) book_id qty) s [].
Proof.
  unfold inventory_is_in_stock. rewrite (bind_pure get _ s s) by done.
  by destruct (InventoryService.is_in_stock _ _ _).
Qed.

Lemma uuid4_run s :
  uuid4 uuid4_str s =
    mkRun (Ok (uuid4_str (uuid_calls s))) (order_drawn s) [order_drawn s].
Proof. reflexivity. Qed.

Lemma sales_create_order_run book_id qty customer s :
  let order := SalesService.new_order (uuid4_str (uuid_calls s)) book_id qty customer in
  sales_create_order uuid4_str book_id qty customer s =
    mkRun (Ok order) (order_recorded s order)
      [order_drawn s; order_recorded s order].
Proof. reflexivity. Qed.

Lemma inventory_reduce_stock_found book_id qty s i b (new : PyNum) :
  InventoryService.get_book (inventory s) book_id = Some (i, b) →
  py_sub (stock b) qty = Ok new →
  inventory_reduce_stock book_id qty s =
    let s' := set_inventory s (<[i := set_stock b new]> (inventory s)) in
    mkRun (Ok tt) s' [s'].
Proof.
  intros Hb Hq. unfold inventory_reduce_stock.
  rewrite (bind_pure get _ s s) by done.
  unfold InventoryService.reduce_stock. rewrite Hb, Hq.
  by rewrite (bind_pure _ _ s _ (lift_Ok _ s)).
Qed.

Lemma inventory_reduce_stock_raise book_id qty s i b e :
  InventoryService.get_book (inventory s) book_id = Some (i, b) →
  py_sub (stock b) qty = Raise e →
  inventory_reduce_stock book_id qty s = mkRun (Raise e) s [].
Proof.
  intros Hb Hq. unfold inventory_reduce_stock.
  rewrite (bind_pure get _ s s) by done.
  unfold InventoryService.reduce_stock. rewrite Hb, Hq.
  by erewrite bind_Raise by apply lift_Raise.
Qed.

Lemma inventory_reduce_stock_missing book_id qty s :
  InventoryService.get_book (inventory s) book_id = None →
  inventory_reduce_stock book_id qty s = mkRun (Ok tt) s [].
Proof.
  intros Hb. unfold inventory_reduce_stock.
  rewrite (bind_pure get _ s s) by done.
  unfold InventoryService.reduce_stock. rewrite Hb.
  by rewrite (bind_pure _ _ s _ (lift_Ok _ s)).
Qed.

(** What [place_order] does on a non-empty dictionary body, branch by
    branch. *)
Lemma place_order_dict request s d :
  get_json request = JDict d → d ≠ [] →
  place_order uuid4_str request s =
    let book_id := dict_get d "book_id" in
    let quantity := dict_get d "quantity" in
    let customer := dict_get d "customer" in
    if negb (py_all [book_id; quantity; customer])
    then mkRun (Ok (mkResponse
           (error "Missing fields: book_id, quantity, customer") 400)) s []
    else
      match InventoryService.get_book (inventory s) book_id with
      | None => mkRun (Ok (mkResponse (error "Insufficient stock") 400)) s []
      | Some (i, b) =>
          match py_ge (stock b) quantity with
          | Raise e => mkRun (Raise e) s []
          | Ok false =>
              mkRun (Ok (mkResponse (error "Insufficient stock") 400)) s []
          | Ok true =>
              let order :=
                SalesService.new_order (uuid4_str (uuid_calls s))
                  book_id quantity customer in
              match py_sub (stock b) quantity with
              | Ok new =>
                  mkRun (Ok (mkResponse order 201))
                    (order_stocked s order i b new)
                    [order_drawn s; order_recorded s order;
                     order_stocked s order i b new]
              | Raise e =>
                  mkRun (Raise e) (order_recorded s order)
                    [order_drawn s; order_recorded s order]
              end
          end
      end.
Proof.
  intros Hd Hne. unfold place_order. rewrite Hd.
  assert (truthy (JDict d) = true) as -> by (by destruct d).
  cbn [negb py_get]. rewrite !(bind_pure _ _ s _ (lift_Ok _ s)).
  cbn zeta. destruct (py_all _); cbn [negb]; [|reflexivity].
  destruct (InventoryService.get_book (inventory s) _) as [[i b]|] eqn:Hb.
  2: { erewrite bind_pure by (rewrite inventory_is_in_stock_run;
         unfold InventoryService.is_in_stock; by rewrite Hb). done. }
  destruct (py_ge (stock b) _) as [[]|e] eqn:Hge.
  - erewrite bind_pure by (rewrite inventory_is_in_stock_run;
      unfold InventoryService.is_in_stock; by rewrite Hb, Hge).
    cbn [truthy negb].
    erewrite bind_Ok by apply sales_create_order_run.
    destruct (py_sub (stock b) _) as [new|e] eqn:Hsub.
    + erewrite bind_Ok.
      2: { eapply inventory_reduce_stock_found; [exact Hb | exact Hsub]. }
      reflexivity.
    + erewrite bind_Raise.
      2: { eapply inventory_reduce_stock_raise; [exact Hb | exact Hsub]. }
      reflexivity.
  - erewrite bind_pure by (rewrite inventory_is_in_stock_run;
      unfold InventoryService.is_in_stock; by rewrite Hb, Hge).
    reflexivity.
  - erewrite bind_Raise; [done|]. rewrite inventory_is_in_stock_run.
    unfold InventoryService.is_in_stock. by rewrite Hb, Hge.
Qed.

(** Whatever the body is, [place_order] either leaves the state as it
    found it, or went through the three states of a successful order,
    or appended the order and then raised at the stock write. *)
Lemma place_order_cases request s :
  let r := place_order uuid4_str request s in
  (final r = s ∧ trace r = [] ∧
   (∀ resp, outcome r = Ok resp → code resp = 400%Z) ∧
   (∀ e, outcome r = Raise e → e = AttributeError ∨ e = TypeError)) ∨
  (∃ d i b,
     let book_id := dict_get d "book_id" in
     let quantity := dict_get d "quantity" in
     let customer := dict_get d "customer" in
     let order :=
       SalesService.new_order (uuid4_str (uuid_calls s))
         book_id quantity customer in
     get_json request = JDict d ∧
     py_all [book_id; quantity; customer] = true ∧
     InventoryService.get_book (inventory s) book_id = Some (i, b) ∧
     py_ge (stock b) quantity = Ok true ∧
     ((∃ new,
         py_sub (stock b) quantity = Ok new ∧
         r = mkRun (Ok (mkResponse order 201)) (order_stocked s order i b new)
               [order_drawn s; order_recorded s order;
                order_stocked s order i b new]) ∨
      (py_sub (stock b) quantity = Raise OverflowError ∧
       r = mkRun (Raise OverflowError) (order_recorded s order)
             [order_drawn s; order_recorded s order]))).
Proof.
  intros r. subst r.
  destruct (get_json request) as [|bb|n|f|str|l|d] eqn:Hd.
  1-6: left; unfold place_order; rewrite Hd; cbn [truthy].
  - split_and!; [done | done | by intros ? [= <-] | done].
  - destruct bb; cbn [negb]; [erewrite bind_Raise by apply lift_Raise|];
      (split_and!; [done | done | by intros ? [= <-] | intros ? [= <-]; eauto]).
  - destruct (n =? 0)%Z; cbn [negb];
      [|erewrite bind_Raise by apply lift_Raise];
      (split_and!; [done | done | by intros ? [= <-] | intros ? [= <-]; eauto]).
  - destruct (PrimFloat.eqb f PrimFloat.zero); cbn [negb];
      [|erewrite bind_Raise by apply lift_Raise];
      (split_and!; [done | done | by intros ? [= <-] | intros ? [= <-]; eauto]).
  - destruct (String.eqb str ""); cbn [negb];
      [|erewrite bind_Raise by apply lift_Raise];
      (split_and!; [done | done | by intros ? [= <-] | intros ? [= <-]; eauto]).
  - destruct l; cbn [negb]; [|erewrite bind_Raise by apply lift_Raise];
      (split_and!; [done | done | by intros ? [= <-] | intros ? [= <-]; eauto]).
  - destruct (decide (d = [])) as [->|Hne].
    { left. unfold place_order. rewrite Hd.
      split_and!; [done | done | by intros ? [= <-] | done]. }
    rewrite (place_order_dict request s d Hd Hne). cbn zeta.
    destruct (py_all _) eqn:Hall; cbn [negb];
      [|left; split_and!; [done | done | by intros ? [= <-] | done]].
    destruct (InventoryService.get_book _ _) as [[i b]|] eqn:Hb;
      [|left; split_and!; [done | done | by intros ? [= <-] | done]].
    destruct (py_ge (stock b) _) as [[]|e] eqn:Hge.
    + right. exists d, i, b. cbn zeta. rewrite Hb.
      split_and!; [done..|].
      destruct (py_sub_after_ge _ _ _ Hge) as [[new Hsub] | Hsub];
        rewrite Hsub; [left; by exists new | by right].
    + left. split_and!; [done | done | by intros ? [= <-] | done].
    + left. split_and!; [done | done | done |].
      intros ? [= <-]. right. unfold py_ge in Hge.
      destruct (as_num _); by simplify_eq.
Qed.

(** The read-only handlers. *)
Lemma get_all_books_run request s :
  get_all_books request s =
    mkRun (Ok (mkResponse (JList (book_json <$> inventory s)) 200)) s [].
Proof. reflexivity. Qed.

Lemma get_book_details_run book_id request s :
  final (get_book_details book_id request s) = s ∧
  trace (get_book_details book_id request s) = [].
Proof.
  unfold get_book_details, inventory_get_book.
  rewrite (bind_pure _ _ s (InventoryService.get_book (inventory s) (JStr book_id)))
    by reflexivity.
  by destruct (InventoryService.get_book _ _) as [[i b]|].
Qed.

Lemma home_run request s :
  home request s =
    mkRun (Ok (mkResponse
                 (JDict [("message",
                          JStr "Bookstore Integration API Running")]) 200))
      s [].
Proof. reflexivity. Qed.

Lemma delivery_record_delivery_run data s :
  delivery_record_delivery uuid4_str data s =
    let s1 := order_drawn s in
    match DeliveryService.record_delivery (deliveries s)
            (uuid4_str (uuid_calls s)) data with
    | Ok r =>
        mkRun (Ok r.1) (set_deliveries s1 r.2) [s1; set_deliveries s1 r.2]
    | Raise e => mkRun (Raise e) s1 [s1]
    end.
Proof.
  unfold delivery_record_delivery.
  erewrite bind_Ok by apply uuid4_run.
  rewrite (bind_pure get _ (order_drawn s) (order_drawn s)) by done.
  cbn [deliveries order_drawn set_uuid_calls].
  destruct (DeliveryService.record_delivery _ _ _) as [r|e].
  - by rewrite (bind_pure _ _ _ _ (lift_Ok _ _)).
  - by erewrite bind_Raise by apply lift_Raise.
Qed.

(** [update_delivery] touches neither the inventory nor the sales
    ledger, in any state it goes through. *)
Lemma update_delivery_frame request s :
  let r := update_delivery uuid4_str request s in
  let same s' := inventory s' = inventory s ∧ sales s' = sales s in
  same (final r) ∧ Forall same (trace r).
Proof.
  cbn zeta. unfold update_delivery.
  destruct (truthy (get_json request)); cbn [negb]; [|by split].
  destruct (get_json request) as [| | | | | |d];
    try (erewrite bind_Raise by apply lift_Raise; by split).
  cbn [py_get]. rewrite !(bind_pure _ _ s _ (lift_Ok _ s)).
  destruct (negb _ || negb _); [by split|].
  pose proof (delivery_record_delivery_run (JDict d) s) as Hrun.
  cbn zeta in Hrun.
  destruct (DeliveryService.record_delivery _ _ _) as [r|e].
  - erewrite bind_Ok by exact Hrun. cbn. split; [done|]. by repeat constructor.
  - erewrite bind_Raise by exact Hrun. cbn. split; [done|].
    by repeat constructor.
Qed.

Lemma view_orders_valid request :
  x_api_key request = Some API_KEY →
  view API_KEY uuid4_str POST_api_orders request =
    place_order uuid4_str request.
Proof. apply require_api_key_valid. Qed.

Lemma dict_get_Some d k v : dict_lookup d k = Some v → dict_get d k = v.
Proof. unfold dict_get. by intros ->. Qed.

Lemma dict_get_None d k : dict_lookup d k = None → dict_get d k = JNull.
Proof. unfold dict_get. by intros ->. Qed.

Lemma dict_lookup_nonempty d k v : dict_lookup d k = Some v → d ≠ [].
Proof. by destruct d. Qed.



Lemma py_all_fields (a b c : Json) :
  py_all [a; b; c] = true ↔
    truthy a = true ∧ truthy b = true ∧ truthy c = true.
Proof.
  unfold py_all. simpl. rewrite !andb_true_iff.
  split; [by intros (? & ? & ? & _) | by intros (? & ? & ?)].
Qed.


(** C2: when the [book_id] of the body matches no book, or the quantity
    exceeds the stock of the book found, the handler appends nothing to
    any ledger and changes no stock: it leaves the state as it was and
    goes through no other state; and when the request has the valid key
    and all three fields filled in, the answer is 400 "Insufficient
    stock". *)
Theorem place_order_insufficient request s d :
  get_json request = JDict d →
  (∀ b, b ∈ inventory s → dict_get d "book_id" ≠ JStr (id b)) ∨
  (∃ i b n q,
     InventoryService.get_book (inventory s) (dict_get d "book_id")
       = Some (i, b) ∧
     stock b = PInt n ∧
     as_int (dict_get d "quantity") = Some q ∧ (n < q)%Z) →
  let r := view API_KEY uuid4_str POST_api_orders request s in
  final r = s ∧ trace r = [] ∧
  (x_api_key request = Some API_KEY →
   py_all [dict_get d "book_id"; dict_get d "quantity";
           dict_get d "customer"] = true →
   outcome r =
     Ok (mkResponse (JDict [("error", JStr "Insufficient stock")]) 400)).
Proof.
  intros Hd Hcause r. subst r.
  assert (∀ i b,
    InventoryService.get_book (inventory s) (dict_get d "book_id")
      = Some (i, b) →
    py_ge (stock b) (dict_get d "quantity") = Ok false) as Hnot.
  { intros i b Hb.
    destruct Hcause
      as [Hno%get_book_None | (i' & b' & n & q & Hb' & Hst & Hq & Hlt)];
      [congruence|].
    rewrite Hb in Hb'. simplify_eq. rewrite Hst, (py_ge_int n _ q Hq).
    by destruct (Z.leb_spec q n); [lia|]. }
  assert (final (place_order uuid4_str request s) = s ∧
          trace (place_order uuid4_str request s) = []) as [Hf Ht].
  { destruct (place_order_cases request s)
      as [(? & ? & _) | (d' & i & b & Hd' & _ & Hb & Hge & _)]; [done|].
    rewrite Hd in Hd'. injection Hd' as <-.
    rewrite (Hnot i b Hb) in Hge. discriminate. }
  split_and!.
  - cbn [view]. unfold require_api_key. by destruct (bool_decide _).
  - cbn [view]. unfold require_api_key. by destruct (bool_decide _).
  - intros Hkey Hall.
    assert (d ≠ []) as Hne.
    { intros ->. discriminate Hall. }
    rewrite (view_orders_valid _ Hkey), (place_order_dict request s d Hd Hne).
    cbn zeta. rewrite Hall. cbn [negb].
    destruct (InventoryService.get_book _ _) as [[i b]|] eqn:Hb; [|done].
    by rewrite (Hnot i b eq_refl).
Qed.

(** C7: of two orders with a valid key and all fields filled in, one
    for an id that matches no book and one for a book whose stock is
    below the quantity asked, both get the same response, 400
    "Insufficient stock". *)
Theorem place_order_failures_alike request1 s1 d1 request2 s2 d2 i b n q :
  x_api_key request1 = Some API_KEY →
  get_json request1 = JDict d1 →
  py_all [dict_get d1 "book_id"; dict_get d1 "quantity";
          dict_get d1 "customer"] = true →
  (∀ b, b ∈ inventory s1 → dict_get d1 "book_id" ≠ JStr (id b)) →
  x_api_key request2 = Some API_KEY →
  get_json request2 = JDict d2 →
  py_all [dict_get d2 "book_id"; dict_get d2 "quantity";
          dict_get d2 "customer"] = true →
  InventoryService.get_book (inventory s2) (dict_get d2 "book_id")
    = Some (i, b) →
  stock b = PInt n →
  as_int (dict_get d2 "quantity") = Some q → (n < q)%Z →
  outcome (view API_KEY uuid4_str POST_api_orders request1 s1) =
    outcome (view API_KEY uuid4_str POST_api_orders request2 s2) ∧
  outcome (view API_KEY uuid4_str POST_api_orders request1 s1) =
    Ok (mkResponse (JDict [("error", JStr "Insufficient stock")]) 400).
Proof.
  intros Hkey1 Hd1 Hall1 Hno%get_book_None Hkey2 Hd2 Hall2 Hb Hst Hq Hlt.
  assert (d1 ≠ []) as Hne1 by (intros ->; discriminate Hall1).
  assert (d2 ≠ []) as Hne2 by (intros ->; discriminate Hall2).
  rewrite (view_orders_valid _ Hkey1), (view_orders_valid _ Hkey2).
  rewrite (place_order_dict request1 s1 d1 Hd1 Hne1).
  rewrite (place_order_dict request2 s2 d2 Hd2 Hne2).
  cbn zeta. rewrite Hall1, Hall2, Hno, Hb, Hst, (py_ge_int n _ q Hq).
  cbn [negb]. by destruct (Z.leb_spec q n); [lia|].
Qed.



(** One request whose quantity, if it is an order, is no float keeps
    every stock an integer that is at least 0, in the state it leaves
    and in every state on the way. *)
Lemma view_stock_int_nonneg route request s :
  stock_int_nonneg s →
  (route = POST_api_orders → quantity_no_float request) →
  stock_int_nonneg (final (view API_KEY uuid4_str route request s)) ∧
  Forall stock_int_nonneg (trace (view API_KEY uuid4_str route request s)).
Proof.
  intros Hs Hnf.
  assert (∀ func : Handler,
    (stock_int_nonneg (final (func request s)) ∧
     Forall stock_int_nonneg (trace (func request s))) →
    stock_int_nonneg (final (require_api_key API_KEY func request s)) ∧
    Forall stock_int_nonneg
      (trace (require_api_key API_KEY func request s)))
    as Hwrap.
  { intros func Hf. unfold require_api_key.
    destruct (bool_decide _); [by split | done]. }
  destruct route as [|book_id| | |]; cbn [view]; try apply Hwrap.
  - by rewrite get_all_books_run.
  - by destruct (get_book_details_run book_id request s) as [-> ->].
  - destruct (place_order_cases request s)
      as [(-> & -> & _) | (d & i & b & Hd & _ & Hb & Hge & Hrun)];
      [by split|].
    cbn zeta in Hrun.
    assert (stock_int_nonneg (order_drawn s)) as Hdrawn by done.
    destruct Hrun as [(new & Hsub & ->) | (_ & ->)]; cbn [final trace].
    2: { split; [done|]. by repeat constructor. }
    pose proof (get_book_lookup _ _ _ _ Hb) as Hi.
    destruct (proj1 (Forall_lookup _ _) Hs i b Hi) as (n0 & Hst & Hn0).
    rewrite Hst in Hge, Hsub. unfold py_ge in Hge.
    destruct (as_num (dict_get d "quantity")) as [x|] eqn:Hx; [|discriminate].
    destruct (as_num_no_float _ _ (λ f, Hnf eq_refl d f Hd) Hx)
      as (q & Hq & ->).
    rewrite (py_sub_int n0 _ q Hq) in Hsub. injection Hsub as <-.
    cbn in Hge. injection Hge as Hge. apply Z.leb_le in Hge.
    assert (stock_int_nonneg
              (order_stocked s
                 (SalesService.new_order (uuid4_str (uuid_calls s))
                    (dict_get d "book_id") (dict_get d "quantity")
                    (dict_get d "customer")) i b (PInt (n0 - q)))) as Hfinal.
    { unfold stock_int_nonneg.
      cbn [order_stocked set_inventory inventory].
      apply Forall_insert; [done|]. exists (n0 - q)%Z. split; [done | lia]. }
    split; [done|]. by repeat constructor.
  - destruct (update_delivery_frame request s) as [[Hinv _] Htr].
    unfold stock_int_nonneg in *. rewrite Hinv. split; [done|].
    eapply list.Forall_impl; [exact Htr|]. by intros s' [-> _].
  - by rewrite home_run.
Qed.


(** C4, as the handler has it: every order [place_order] appends to
    the sales ledger stores the quantity of the request as it came; that
    quantity is true as a condition, so it is not 0, and Python's
    [stock >= quantity] held of the stock of the book found, which for an
    integer stock and an integer quantity means the quantity is at most
    the stock; nothing makes it positive, or an integer. *)
Theorem order_quantity_accepted request s order :
  sales (final (view API_KEY uuid4_str POST_api_orders request s)) =
    sales s ++ [order] →
  ∃ d i b,
    get_json request = JDict d ∧
    py_getitem order "quantity" = Ok (dict_get d "quantity") ∧
    truthy (dict_get d "quantity") = true ∧
    InventoryService.get_book (inventory s) (dict_get d "book_id")
      = Some (i, b) ∧
    py_ge (stock b) (dict_get d "quantity") = Ok true ∧
    (∀ n q, stock b = PInt n →
            as_int (dict_get d "quantity") = Some q →
            q ≠ 0%Z ∧ (q ≤ n)%Z).
Proof.
  assert (sales s ≠ sales s ++ [order]) as Hgrow.
  { intros Heq. apply (f_equal length) in Heq.
    rewrite length_app in Heq. cbn in Heq. lia. }
  cbn [view]. unfold require_api_key.
  destruct (bool_decide _); [intros H; by destruct Hgrow|].
  destruct (place_order_cases request s)
    as [(-> & _) | (d & i & b & Hd & Hall & Hb & Hge & Hrun)];
    [intros H; by destruct Hgrow|].
  cbn zeta in Hrun.
  assert (order =
          SalesService.new_order (uuid4_str (uuid_calls s))
            (dict_get d "book_id") (dict_get d "quantity")
            (dict_get d "customer") →
          ∃ d i b,
            get_json request = JDict d ∧
            py_getitem order "quantity" = Ok (dict_get d "quantity") ∧
            truthy (dict_get d "quantity") = true ∧
            InventoryService.get_book (inventory s) (dict_get d "book_id")
              = Some (i, b) ∧
            py_ge (stock b) (dict_get d "quantity") = Ok true ∧
            (∀ n q, stock b = PInt n →
                    as_int (dict_get d "quantity") = Some q →
                    q ≠ 0%Z ∧ (q ≤ n)%Z)) as Hgoal.
  { intros ->. exists d, i, b.
    apply py_all_fields in Hall as (_ & Hqt & _).
    split_and!; try done.
    intros n q Hst Hq. split; [by eapply as_int_truthy|].
    rewrite Hst, (py_ge_int n _ q Hq) in Hge. injection Hge as Hge.
    by apply Z.leb_le. }
  destruct Hrun as [(new & _ & ->) | (_ & ->)];
    cbn [final order_stocked order_recorded set_inventory set_sales sales];
    intros Heq%app_inv_head; injection Heq as Heq; by apply Hgoal.
Qed.

(** C6: in every successful placement the handler goes through three
    states: the identifier is drawn, then the order is in the sales
    ledger while the inventory is still as it was, then the stock of the
    book found is written, and of no other; so every state whose
    inventory differs from the initial one already has the order in the
    ledger.  For an integer stock and an integer quantity the stock
    written is the old one minus the quantity, and differs from it. *)
Theorem order_recorded_before_stock request s resp :
  outcome (view API_KEY uuid4_str POST_api_orders request s) = Ok resp →
  code resp = 201%Z →
  let r := view API_KEY uuid4_str POST_api_orders request s in
  ∃ s1 s2 s3,
    trace r = [s1; s2; s3] ∧ final r = s3 ∧
    (sales s1 = sales s ∧ inventory s1 = inventory s) ∧
    (sales s2 = sales s ++ [body resp] ∧ inventory s2 = inventory s) ∧
    sales s3 = sales s ++ [body resp] ∧
    (∃ d i b b' new,
       get_json request = JDict d ∧
       InventoryService.get_book (inventory s) (dict_get d "book_id")
         = Some (i, b) ∧
       py_sub (stock b) (dict_get d "quantity") = Ok new ∧
       inventory s3 !! i = Some b' ∧ stock b' = new ∧
       (∀ j, j ≠ i → inventory s3 !! j = inventory s !! j) ∧
       (∀ n q, stock b = PInt n →
               as_int (dict_get d "quantity") = Some q →
               stock b' = PInt (n - q) ∧ inventory s3 ≠ inventory s)) ∧
    ∀ s', s' ∈ trace r →
          inventory s' ≠ inventory s → body resp ∈ sales s'.
Proof.
  cbn [view]. unfold require_api_key.
  destruct (bool_decide _); [by intros [= <-]|].
  destruct (place_order_cases request s)
    as [(_ & _ & H400 & _) | (d & i & b & Hd & Hall & Hb & Hge & Hrun)].
  { intros Hresp Hcode. specialize (H400 _ Hresp). congruence. }
  cbn zeta in Hrun.
  destruct Hrun as [(new & Hsub & ->) | (_ & ->)]; [|discriminate].
  cbn [outcome final trace]. intros [= <-] _. cbn [body].
  pose proof (get_book_lookup _ _ _ _ Hb) as Hi.
  assert (<[i := set_stock b new]> (inventory s) !! i
          = Some (set_stock b new)) as Hi'.
  { apply list_lookup_insert_eq. by eapply lookup_lt_Some. }
  eexists _, _, _. split_and!; try reflexivity.
  - exists d, i, b, (set_stock b new), new.
    cbn [order_stocked set_inventory inventory].
    split_and!; try done.
    + intros j Hj. by apply list_lookup_insert_ne.
    + intros n q Hst Hq. rewrite Hst, (py_sub_int n _ q Hq) in Hsub.
      injection Hsub as <-. split; [done|]. intros Heq.
      apply py_all_fields in Hall as (_ & Hqt & _).
      pose proof (as_int_truthy _ _ Hq Hqt) as Hq0.
      rewrite Heq, Hi in Hi'. injection Hi' as Hi'.
      apply (f_equal stock) in Hi'. rewrite Hst in Hi'. cbn in Hi'.
      injection Hi' as Hi'. lia.
  - intros s' Hs' Hinv.
    rewrite !elem_of_cons, elem_of_nil in Hs'.
    destruct Hs' as [-> | [-> | [-> | []]]]; cbn in *;
      [done | done | apply elem_of_app; right; by apply list_elem_of_singleton].
Qed.

(** C8: on each of the four routes behind [require_api_key], a request
    whose [x-api-key] header is absent or is not the configured key is
    answered 401 "Unauthorized - Invalid API Key" and the inventory, the
    sales ledger and the delivery ledger stay as they were, the handler
    going through no other state; [GET /] answers 200 whatever the
    header. *)
Theorem unauthorized_no_effect :
  (∀ route request s,
     protected route = true →
     x_api_key request = None ∨
     (∃ key, x_api_key request = Some key ∧ key ≠ API_KEY) →
     view API_KEY uuid4_str route request s =
       mkRun (Ok (mkResponse
                    (JDict [("error", JStr "Unauthorized - Invalid API Key")])
                    401)) s []) ∧
  (∀ request s,
     protected GET_root = false ∧
     view API_KEY uuid4_str GET_root request s =
       mkRun (Ok (mkResponse
                    (JDict [("message",
                             JStr "Bookstore Integration API Running")])
                    200)) s []).
Proof.
  split.
  - intros route request s Hprot Hkey.
    assert (x_api_key request ≠ Some API_KEY) as Hne.
    { destruct Hkey as [-> | (key & -> & Hk)]; congruence. }
    destruct route; try discriminate Hprot; cbn [view];
      by apply require_api_key_invalid.
  - by intros request s.
Qed.

(** C10: with a valid key, a body in which one of [book_id],
    [quantity], [customer] is present but falsy (0, the empty string,
    also [null], [false], an empty list or object) is answered 400
    "Missing fields: book_id, quantity, customer" and the state is left
    as it was; a body from which that field is absent gets the same
    response. *)
Theorem place_order_falsy_field request s d k v :
  x_api_key request = Some API_KEY →
  get_json request = JDict d →
  k ∈ order_fields →
  dict_lookup d k = Some v → truthy v = false →
  view API_KEY uuid4_str POST_api_orders request s =
    mkRun (Ok (mkResponse
                 (JDict [("error",
                          JStr "Missing fields: book_id, quantity, customer")])
                 400)) s [] ∧
  ∀ request' s' d',
    x_api_key request' = Some API_KEY →
    get_json request' = JDict d' → d' ≠ [] →
    dict_lookup d' k = None →
    outcome (view API_KEY uuid4_str POST_api_orders request' s') =
      outcome (view API_KEY uuid4_str POST_api_orders request s).
Proof.
  intros Hkey Hd Hk Hv Hfalsy.
  assert (∀ d0, truthy (dict_get d0 k) = false →
            py_all [dict_get d0 "book_id"; dict_get d0 "quantity";
                    dict_get d0 "customer"] = false) as Hall.
  { intros d0 H0. unfold order_fields in Hk.
    rewrite !elem_of_cons, elem_of_nil in Hk.
    destruct (py_all _) eqn:Hp; [|done].
    apply py_all_fields in Hp as (? & ? & ?).
    destruct Hk as [-> | [-> | [-> | []]]]; congruence. }
  assert (view API_KEY uuid4_str POST_api_orders request s =
          mkRun (Ok missing_fields) s []) as Hrun.
  { rewrite (view_orders_valid _ Hkey).
    rewrite (place_order_dict request s d Hd (dict_lookup_nonempty _ _ _ Hv)).
    cbn zeta. rewrite Hall; [done|]. by rewrite (dict_get_Some _ _ _ Hv). }
  split; [exact Hrun|].
  intros request' s' d' Hkey' Hd' Hne' Hnone. rewrite Hrun.
  rewrite (view_orders_valid _ Hkey'), (place_order_dict request' s' d' Hd' Hne').
  cbn zeta. rewrite Hall; [done|]. by rewrite (dict_get_None _ _ Hnone).
Qed.

End Handlers.

(** ** Further properties of the handlers and the services *)

Section Further.

Context (API_KEY : string) (uuid4_str : nat → string).

Local Open Scope py_scope.

Implicit Types (s : State) (request : Request) (d : list (string * Json)).
Implicit Types (inv : list Book) (b : Book) (i : nat) (n q : Z).

Lemma truthy_dict_get d k :
  truthy (dict_get d k) = true → dict_lookup d k = Some (dict_get d k).
Proof. unfold dict_get. by destruct (dict_lookup d k). Qed.

Lemma truthy_JDict d : d ≠ [] → truthy (JDict d) = true.
Proof. by destruct d. Qed.

(** Writing a new integer stock at one position moves the total by
    the difference. *)
Lemma total_stock_insert inv i b n q :
  inv !! i = Some b → stock b = PInt n →
  total_stock (<[i := set_stock b (PInt (n - q))]> inv)
  = (total_stock inv - q)%Z.
Proof.
  intros Hi Hst. revert i Hi.
  induction inv as [|b0 inv IH]; intros [|i] Hi; try done.
  - injection Hi as ->. cbn. unfold stock_int. rewrite Hst. cbn. lia.
  - cbn in Hi. cbn [list_insert insert total_stock foldr].
    change (foldr (λ b1 acc, (stock_int b1 + acc)%Z) 0%Z
              (<[i := set_stock b (PInt (n - q))]> inv))
      with (total_stock (<[i := set_stock b (PInt (n - q))]> inv)).
    rewrite (IH i Hi). unfold total_stock. lia.
Qed.

(** With an integer stock and a quantity that is no float, an accepted
    comparison means an integer quantity at most the stock, and the
    subtraction is exact. *)
Lemma accepted_int (st : PyNum) (qty : Json) n :
  st = PInt n → (∀ f, qty ≠ JFloat f) → py_ge st qty = Ok true →
  ∃ q, as_int qty = Some q ∧ (q ≤ n)%Z ∧ py_sub st qty = Ok (PInt (n - q)).
Proof.
  intros -> Hnf Hge. unfold py_ge in Hge.
  destruct (as_num qty) as [x|] eqn:Hx; [|discriminate].
  destruct (as_num_no_float _ _ Hnf Hx) as (q & Hq & ->).
  exists q. cbn in Hge. injection Hge as Hge. apply Z.leb_le in Hge.
  split_and!; [done | done | by apply py_sub_int].
Qed.

(** What [update_delivery] does on a non-empty dictionary body. *)
Lemma update_delivery_dict request s d :
  get_json request = JDict d → d ≠ [] →
  update_delivery uuid4_str request s =
    let order_id := dict_get d "order_id" in
    let address := dict_get d "address" in
    if negb (truthy order_id) || negb (truthy address)
    then mkRun (Ok missing_delivery_fields) s []
    else
      let delivery :=
        new_delivery (uuid4_str (uuid_calls s)) order_id address in
      let s' := set_deliveries (order_drawn s) (deliveries s ++ [delivery]) in
      mkRun (Ok (mkResponse delivery 201)) s' [order_drawn s; s'].
Proof.
  intros Hd Hne. unfold update_delivery. rewrite Hd.
  rewrite (truthy_JDict d Hne). cbn [negb py_get].
  rewrite !(bind_pure _ _ s _ (lift_Ok _ s)). cbn zeta.
  destruct (truthy (dict_get d "order_id")) eqn:Ho; cbn [negb orb]; [|done].
  destruct (truthy (dict_get d "address")) eqn:Ha; cbn [negb]; [|done].
  pose proof (delivery_record_delivery_run uuid4_str (JDict d) s) as Hrun.
  cbn zeta in Hrun. unfold DeliveryService.record_delivery, py_getitem in Hrun.
  rewrite (truthy_dict_get _ _ Ho), (truthy_dict_get _ _ Ha) in Hrun.
  by erewrite bind_Ok by exact Hrun.
Qed.

(** The run of a POST handler on a body that is true as a condition but
    is no dictionary: [data.get] does not exist. *)
Lemma post_not_dict_run (route : Route) request s :
  is_get route = false →
  truthy (get_json request) = true →
  (∀ d, get_json request ≠ JDict d) →
  match route with
  | POST_api_orders => place_order uuid4_str request s
  | _ => update_delivery uuid4_str request s
  end = mkRun (Raise AttributeError) s [].
Proof.
  intros Hroute Ht Hnd.
  destruct route; try discriminate Hroute;
    unfold place_order, update_delivery; rewrite Ht; cbn [negb];
    (destruct (get_json request) as [| | | | | |d]; [..|by destruct (Hnd d)]);
    by erewrite bind_Raise by apply lift_Raise.
Qed.

(** X1: [POST /api/orders] answers 201 only when the key is the
    configured one, the body is an object whose three fields are all
    true as conditions, and [get_book] finds a book for [book_id]; and
    for a request whose book is found with an integer stock and whose
    quantity is an integer, it answers 201 exactly when the key is
    valid, the three fields are true as conditions and the quantity
    does not exceed the stock. *)
Theorem place_order_created_iff request s :
  ((∃ resp,
      outcome (view API_KEY uuid4_str POST_api_orders request s) = Ok resp ∧
      code resp = 201%Z) →
   x_api_key request = Some API_KEY ∧
   ∃ d i b,
     get_json request = JDict d ∧
     py_all [dict_get d "book_id"; dict_get d "quantity";
             dict_get d "customer"] = true ∧
     InventoryService.get_book (inventory s) (dict_get d "book_id")
       = Some (i, b)) ∧
  (∀ d i b n q,
     get_json request = JDict d →
     InventoryService.get_book (inventory s) (dict_get d "book_id")
       = Some (i, b) →
     stock b = PInt n → as_int (dict_get d "quantity") = Some q →
     ((∃ resp,
         outcome (view API_KEY uuid4_str POST_api_orders request s)
           = Ok resp ∧
         code resp = 201%Z) ↔
      x_api_key request = Some API_KEY ∧
      py_all [dict_get d "book_id"; dict_get d "quantity";
              dict_get d "customer"] = true ∧
      (q ≤ n)%Z)).
Proof.
  assert ((∃ resp,
      outcome (view API_KEY uuid4_str POST_api_orders request s) = Ok resp ∧
      code resp = 201%Z) →
   x_api_key request = Some API_KEY ∧
   ∃ d i b,
     get_json request = JDict d ∧
     py_all [dict_get d "book_id"; dict_get d "quantity";
             dict_get d "customer"] = true ∧
     InventoryService.get_book (inventory s) (dict_get d "book_id")
       = Some (i, b) ∧
     py_ge (stock b) (dict_get d "quantity") = Ok true) as Honly.
  { intros (resp & Hout & Hcode). cbn [view] in Hout.
    unfold require_api_key in Hout.
    destruct (bool_decide_reflect (x_api_key request ≠ Some API_KEY))
      as [Hne|Heq].
    { injection Hout as <-. discriminate Hcode. }
    split; [by destruct (decide (x_api_key request = Some API_KEY))|].
    destruct (place_order_cases uuid4_str request s)
      as [(_ & _ & H400 & _) | (d & i & b & Hd & Hall & Hb & Hge & _)].
    + specialize (H400 _ Hout). congruence.
    + by exists d, i, b. }
  split.
  - intros H. destruct (Honly H) as (Hkey & d & i & b & ? & ? & ? & _).
    split; [done|]. by exists d, i, b.
  - intros d i b n q Hd Hb Hst Hq. split.
    + intros H.
      destruct (Honly H) as (Hkey & d' & i' & b' & Hd' & Hall & Hb' & Hge).
      rewrite Hd in Hd'. injection Hd' as <-. rewrite Hb in Hb'.
      injection Hb' as <- <-.
      rewrite Hst, (py_ge_int n _ q Hq) in Hge. injection Hge as Hge.
      split_and!; [done | done | by apply Z.leb_le].
    + intros (Hkey & Hall & Hle).
      assert (d ≠ []) as Hne by (intros ->; discriminate Hall).
      rewrite (view_orders_valid API_KEY uuid4_str _ Hkey).
      rewrite (place_order_dict uuid4_str request s d Hd Hne). cbn zeta.
      rewrite Hall, Hb, Hst, (py_ge_int n _ q Hq), (py_sub_int n _ q Hq).
      cbn [negb]. destruct (Z.leb_spec q n); [|lia]. by eexists.
Qed.

(** X2: Every accepted order whose quantity is an integer ([true]
    counting for 1), whatever the JSON types of [book_id] and
    [customer] and whatever the sign of the quantity: the order returned
    and appended carries the three fields as they came and the status
    PAID, and the integer stock of the book found, and of no other,
    becomes the old stock minus the quantity; a quantity below 0
    therefore raises the stock. *)
Theorem place_order_accepted_effect request s d i b n q :
  x_api_key request = Some API_KEY →
  get_json request = JDict d →
  py_all [dict_get d "book_id"; dict_get d "quantity";
          dict_get d "customer"] = true →
  InventoryService.get_book (inventory s) (dict_get d "book_id")
    = Some (i, b) →
  stock b = PInt n →
  as_int (dict_get d "quantity") = Some q → (q ≤ n)%Z →
  let r := view API_KEY uuid4_str POST_api_orders request s in
  ∃ order b',
    outcome r = Ok (mkResponse order 201) ∧
    py_getitem order "book_id" = Ok (dict_get d "book_id") ∧
    py_getitem order "quantity" = Ok (dict_get d "quantity") ∧
    py_getitem order "customer" = Ok (dict_get d "customer") ∧
    py_getitem order "status" = Ok (JStr "PAID") ∧
    sales (final r) = sales s ++ [order] ∧
    inventory (final r) !! i = Some b' ∧
    stock b' = PInt (n - q) ∧
    (∀ j, j ≠ i → inventory (final r) !! j = inventory s !! j) ∧
    deliveries (final r) = deliveries s ∧
    ((q < 0)%Z → (n < n - q)%Z).
Proof.
  intros Hkey Hd Hall Hb Hst Hq Hle r. subst r.
  assert (d ≠ []) as Hne by (intros ->; discriminate Hall).
  rewrite (view_orders_valid API_KEY uuid4_str _ Hkey).
  rewrite (place_order_dict uuid4_str request s d Hd Hne). cbn zeta.
  rewrite Hall, Hb, Hst, (py_ge_int n _ q Hq), (py_sub_int n _ q Hq).
  cbn [negb]. destruct (Z.leb_spec q n); [|lia].
  cbn [outcome final order_stocked order_recorded order_drawn set_inventory
       set_sales set_uuid_calls inventory sales deliveries].
  eexists _, (set_stock b (PInt (n - q))).
  split_and!; try reflexivity.
  - apply list_lookup_insert_eq. eapply lookup_lt_Some.
    by eapply get_book_lookup.
  - intros j Hj. by apply list_lookup_insert_ne.
  - lia.
Qed.

(** X3: On both POST routes a body that is false as a condition ([null],
    an empty object or list, 0, the empty string, [false]) is answered
    400 "JSON body is required" and nothing is written. *)
Theorem post_empty_body route request s :
  is_get route = false →
  x_api_key request = Some API_KEY →
  truthy (get_json request) = false →
  view API_KEY uuid4_str route request s =
    mkRun (Ok (mkResponse (JDict [("error", JStr "JSON body is required")])
                 400)) s [].
Proof.
  intros Hroute Hkey Hfalsy.
  destruct route; try discriminate Hroute; cbn [view];
    rewrite (require_api_key_valid API_KEY _ _ Hkey);
    unfold place_order, update_delivery; by rewrite Hfalsy.
Qed.

(** X4: On both POST routes a body that is true as a condition but is not
    an object (a non-empty list or string, a number other than 0,
    [true]) makes the handler raise [AttributeError] at [data.get]; the
    state is as it was. *)
Theorem post_body_not_object route request s :
  is_get route = false →
  x_api_key request = Some API_KEY →
  truthy (get_json request) = true →
  (∀ d, get_json request ≠ JDict d) →
  view API_KEY uuid4_str route request s = mkRun (Raise AttributeError) s [].
Proof.
  intros Hroute Hkey Ht Hnd.
  pose proof (post_not_dict_run route request s Hroute Ht Hnd) as Hrun.
  destruct route; try discriminate Hroute; cbn [view];
    by rewrite (require_api_key_valid API_KEY _ _ Hkey).
Qed.

(** X5: A quantity that is no number (a string, a list, an object):
    when the book exists the comparison with its stock raises
    [TypeError] and nothing is written; when no book has the id the
    answer is the usual 400 "Insufficient stock", the quantity not being
    looked at. *)
Theorem place_order_quantity_not_number request s d :
  x_api_key request = Some API_KEY →
  get_json request = JDict d →
  py_all [dict_get d "book_id"; dict_get d "quantity";
          dict_get d "customer"] = true →
  as_num (dict_get d "quantity") = None →
  view API_KEY uuid4_str POST_api_orders request s =
    match InventoryService.get_book (inventory s) (dict_get d "book_id") with
    | Some _ => mkRun (Raise TypeError) s []
    | None => mkRun (Ok insufficient_stock) s []
    end.
Proof.
  intros Hkey Hd Hall Hq.
  assert (d ≠ []) as Hne by (intros ->; discriminate Hall).
  rewrite (view_orders_valid API_KEY uuid4_str _ Hkey).
  rewrite (place_order_dict uuid4_str request s d Hd Hne). cbn zeta.
  rewrite Hall. cbn [negb]. unfold py_ge. rewrite Hq.
  by destruct (InventoryService.get_book _ _) as [[i b]|].
Qed.

(** X6: [is_in_stock] raises exactly when a book is found and the
    quantity is no number, and then it raises [TypeError];
    [reduce_stock] raises [TypeError] in exactly the same case, and the
    only other exception it raises is [OverflowError], when of the stock
    found and the quantity one is a float and the other an [int] too
    large to be converted to a float.  Neither raises for a missing
    book. *)
Theorem inventory_raises_iff inv book_id qty :
  ((∃ e, InventoryService.is_in_stock inv book_id qty = Raise e) ↔
     is_Some (InventoryService.get_book inv book_id) ∧ as_num qty = None) ∧
  (∀ e, InventoryService.is_in_stock inv book_id qty = Raise e →
        e = TypeError) ∧
  (InventoryService.reduce_stock inv book_id qty = Raise TypeError ↔
     is_Some (InventoryService.get_book inv book_id) ∧ as_num qty = None) ∧
  (∀ e, InventoryService.reduce_stock inv book_id qty = Raise e →
        e = TypeError ∨
        e = OverflowError ∧
        ∃ i b,
          InventoryService.get_book inv book_id = Some (i, b) ∧
          ((∃ n f, stock b = PInt n ∧ qty = JFloat f ∧ float_of_Z n = None) ∨
           (∃ f q, stock b = PFloat f ∧ as_int qty = Some q ∧
                   float_of_Z q = None))).
Proof.
  unfold InventoryService.is_in_stock, InventoryService.reduce_stock,
    py_ge, py_sub.
  destruct (InventoryService.get_book inv book_id) as [[i b]|].
  2: { split_and!; try (split; [by intros [? ?] | by intros [[? ?] ?]]);
       try (split; [done | by intros [[? ?] ?]]); by intros. }
  destruct (as_num qty) as [x|] eqn:Hx.
  2: { split_and!; try (split; [eauto | by eexists]);
       try (split; [eauto | done]); intros e [= <-]; eauto. }
  split_and!.
  - split; [by intros [? ?] | by intros [_ ?]].
  - by intros.
  - split; [|by intros [_ ?]]. by destruct (num_sub (stock b) x).
  - intros e He. right.
    destruct (num_sub (stock b) x) as [new|] eqn:Hsub; [done|].
    injection He as <-. split; [done|]. exists i, b. split; [done|].
    destruct (stock b) as [n|f] eqn:Hst, x as [q|g]; cbn in Hsub;
      try discriminate.
    + left. destruct (float_of_Z n) eqn:Hn; [discriminate|].
      exists n, g. split_and!; [done | | done].
      destruct qty; cbn in Hx; by simplify_eq.
    + right. destruct (float_of_Z q) eqn:Hq; [discriminate|].
      exists f, q. split_and!; [done | | done].
      destruct qty; cbn in Hx; by simplify_eq.
Qed.

(** X7: [reduce_stock] does not look at the stock it writes: for an
    integer quantity above the integer stock of the book found, the
    stock it leaves is below 0, although [is_in_stock] answers [False]
    for the same arguments. *)
Theorem reduce_stock_unchecked inv book_id qty i b n q :
  InventoryService.get_book inv book_id = Some (i, b) →
  stock b = PInt n →
  as_int qty = Some q → (n < q)%Z →
  ∃ inv' b',
    InventoryService.reduce_stock inv book_id qty = Ok inv' ∧
    InventoryService.get_book inv' book_id = Some (i, b') ∧
    stock b' = PInt (n - q) ∧ (n - q < 0)%Z ∧
    InventoryService.is_in_stock inv book_id qty = Ok (JBool false).
Proof.
  intros Hb Hst Hq Hlt.
  exists (<[i := set_stock b (PInt (n - q))]> inv),
    (set_stock b (PInt (n - q))).
  unfold InventoryService.reduce_stock, InventoryService.is_in_stock.
  rewrite Hb, Hst, (py_ge_int n _ q Hq), (py_sub_int n _ q Hq).
  split_and!; [done | by apply get_book_set_stock | done | lia |].
  by destruct (Z.leb_spec q n); [lia|].
Qed.

(** X8: [GET /api/books/<book_id>] with the valid key: 200 with the first
    book of the inventory carrying the id, 404 "Book not found" exactly
    when no book carries it; the state is as it was. *)
Theorem get_book_details_found_or_404 book_id request s :
  x_api_key request = Some API_KEY →
  let r := view API_KEY uuid4_str (GET_api_books_id book_id) request s in
  final r = s ∧ trace r = [] ∧
  (∀ i b,
     InventoryService.get_book (inventory s) (JStr book_id) = Some (i, b) →
     outcome r = Ok (mkResponse (book_json b) 200) ∧ id b = book_id) ∧
  (outcome r = Ok (mkResponse (JDict [("error", JStr "Book not found")]) 404)
   ↔ ∀ b, b ∈ inventory s → id b ≠ book_id).
Proof.
  intros Hkey r. subst r. cbn [view].
  rewrite (require_api_key_valid API_KEY _ _ Hkey).
  destruct (get_book_details_run book_id request s) as [Hfin Htr].
  split_and!; [done | done | |].
  - intros i b Hb. unfold get_book_details, inventory_get_book.
    rewrite (bind_pure _ _ s
               (InventoryService.get_book (inventory s) (JStr book_id)))
      by reflexivity.
    rewrite Hb. split; [done|].
    apply get_book_Some in Hb as (_ & Heq & _). congruence.
  - unfold get_book_details, inventory_get_book.
    rewrite (bind_pure _ _ s
               (InventoryService.get_book (inventory s) (JStr book_id)))
      by reflexivity.
    destruct (InventoryService.get_book _ _) as [[i b]|] eqn:Hb.
    + split; [discriminate|]. intros Hno.
      apply get_book_Some in Hb as (Hi & Heq & _).
      destruct (Hno b); [by eapply list_elem_of_lookup_2 | congruence].
    + split; [|done]. intros _ b Hin Heq.
      apply (proj1 (get_book_None _ _) Hb b Hin). congruence.
Qed.

(** X9: The three GET routes write nothing, whatever the key: the state is
    left as it was, so asking again gives the same answer. *)
Theorem get_routes_read_only route request s :
  is_get route = true →
  let r := view API_KEY uuid4_str route request s in
  final r = s ∧ trace r = [] ∧
  view API_KEY uuid4_str route request (final r) = r.
Proof.
  intros Hroute r. subst r.
  assert (final (view API_KEY uuid4_str route request s) = s ∧
          trace (view API_KEY uuid4_str route request s) = []) as [Hf Ht].
  { destruct route; try discriminate Hroute; cbn [view];
      unfold require_api_key; try destruct (bool_decide _); try done.
    apply get_book_details_run. }
  split_and!; [done | done | by rewrite Hf].
Qed.

(** X10: After an accepted order for an integer quantity of a book
    with an integer stock, looking the book up answers 200 with a body
    whose ["stock"] is the old stock minus the quantity, under the same
    ["id"] and ["title"]. *)
Theorem place_order_then_get_book request request' s d i b n q :
  x_api_key request = Some API_KEY →
  get_json request = JDict d →
  py_all [dict_get d "book_id"; dict_get d "quantity";
          dict_get d "customer"] = true →
  InventoryService.get_book (inventory s) (dict_get d "book_id")
    = Some (i, b) →
  stock b = PInt n →
  as_int (dict_get d "quantity") = Some q → (q ≤ n)%Z →
  x_api_key request' = Some API_KEY →
  let s' := final (view API_KEY uuid4_str POST_api_orders request s) in
  ∃ book,
    outcome (view API_KEY uuid4_str (GET_api_books_id (id b)) request' s') =
      Ok (mkResponse book 200) ∧
    py_getitem book "stock" = Ok (JInt (n - q)) ∧
    py_getitem book "id" = Ok (JStr (id b)) ∧
    py_getitem book "title" = Ok (JStr (title b)).
Proof.
  intros Hkey Hd Hall Hb Hst Hq Hle Hkey' s'. subst s'.
  assert (d ≠ []) as Hne by (intros ->; discriminate Hall).
  rewrite (view_orders_valid API_KEY uuid4_str _ Hkey).
  rewrite (place_order_dict uuid4_str request s d Hd Hne). cbn zeta.
  rewrite Hall, Hb, Hst, (py_ge_int n _ q Hq), (py_sub_int n _ q Hq).
  cbn [negb]. destruct (Z.leb_spec q n); [|lia]. cbn [final view].
  rewrite (require_api_key_valid API_KEY _ _ Hkey').
  unfold get_book_details, inventory_get_book.
  erewrite bind_pure by reflexivity.
  cbn [order_stocked set_inventory inventory].
  pose proof Hb as Hb'. apply get_book_Some in Hb' as (_ & Heq & _).
  rewrite <- Heq.
  rewrite (get_book_set_stock _ _ _ _ (PInt (n - q)) Hb).
  eexists. split; [reflexivity|]. rewrite ?Heq. split_and!; reflexivity.
Qed.

(** X11: After an accepted order for [q1] copies of a book with an
    integer stock, a second order for the same book with an integer
    quantity is accepted exactly when that quantity does not exceed
    what is left, the old stock minus [q1]. *)
Theorem place_order_twice request1 request2 s d1 d2 i b n q1 q2 :
  x_api_key request1 = Some API_KEY →
  get_json request1 = JDict d1 →
  py_all [dict_get d1 "book_id"; dict_get d1 "quantity";
          dict_get d1 "customer"] = true →
  InventoryService.get_book (inventory s) (dict_get d1 "book_id")
    = Some (i, b) →
  stock b = PInt n →
  as_int (dict_get d1 "quantity") = Some q1 → (q1 ≤ n)%Z →
  x_api_key request2 = Some API_KEY →
  get_json request2 = JDict d2 →
  py_all [dict_get d2 "book_id"; dict_get d2 "quantity";
          dict_get d2 "customer"] = true →
  dict_get d2 "book_id" = dict_get d1 "book_id" →
  as_int (dict_get d2 "quantity") = Some q2 →
  let s' := final (view API_KEY uuid4_str POST_api_orders request1 s) in
  let r := view API_KEY uuid4_str POST_api_orders request2 s' in
  if (q2 <=? n - q1)%Z
  then ∃ order, outcome r = Ok (mkResponse order 201) ∧
                sales (final r) = sales s' ++ [order]
  else r = mkRun (Ok insufficient_stock) s' [].
Proof.
  intros Hkey1 Hd1 Hall1 Hb Hst Hq1 Hle Hkey2 Hd2 Hall2 Hsame Hq2 s' r.
  subst r s'.
  assert (d1 ≠ []) as Hne1 by (intros ->; discriminate Hall1).
  assert (d2 ≠ []) as Hne2 by (intros ->; discriminate Hall2).
  rewrite (view_orders_valid API_KEY uuid4_str _ Hkey1).
  rewrite (place_order_dict uuid4_str request1 s d1 Hd1 Hne1). cbn zeta.
  rewrite Hall1, Hb, Hst, (py_ge_int n _ q1 Hq1), (py_sub_int n _ q1 Hq1).
  cbn [negb]. destruct (Z.leb_spec q1 n); [|lia]. cbn [final].
  rewrite (view_orders_valid API_KEY uuid4_str _ Hkey2).
  rewrite (place_order_dict uuid4_str request2 _ d2 Hd2 Hne2). cbn zeta.
  rewrite Hall2, Hsame. cbn [negb].
  cbn [order_stocked set_inventory inventory].
  rewrite (get_book_set_stock _ _ _ _ (PInt (n - q1)) Hb).
  cbn [set_stock stock].
  rewrite (py_ge_int (n - q1) _ q2 Hq2), (py_sub_int (n - q1) _ q2 Hq2).
  destruct (q2 <=? n - q1)%Z; [|done].
  eexists. by split.
Qed.

(** Whatever the body is, [update_delivery] either leaves the state as
    it found it, or drew an identifier and appended one delivery. *)
Lemma update_delivery_cases request s :
  let r := update_delivery uuid4_str request s in
  (final r = s ∧ trace r = [] ∧
   ∀ resp, outcome r = Ok resp → code resp = 400%Z) ∨
  (∃ d,
     let delivery :=
       new_delivery (uuid4_str (uuid_calls s))
         (dict_get d "order_id") (dict_get d "address") in
     let s' := set_deliveries (order_drawn s) (deliveries s ++ [delivery]) in
     get_json request = JDict d ∧
     truthy (dict_get d "order_id") = true ∧
     truthy (dict_get d "address") = true ∧
     r = mkRun (Ok (mkResponse delivery 201)) s' [order_drawn s; s']).
Proof.
  intros r. subst r.
  destruct (truthy (get_json request)) eqn:Ht.
  2: { left. unfold update_delivery. rewrite Ht.
       split_and!; [done..| by intros ? [= <-]]. }
  destruct (get_json request) as [| | | | | |d] eqn:Hd.
  1-6: left;
    rewrite (post_not_dict_run POST_api_delivery_update request s eq_refl)
      by (rewrite Hd; done);
    by split_and!.
  assert (d ≠ []) as Hne by (by destruct d).
  rewrite (update_delivery_dict request s d Hd Hne). cbn zeta.
  destruct (truthy (dict_get d "order_id")) eqn:Ho; cbn [negb orb];
    [|left; split_and!; [done..| by intros ? [= <-]]].
  destruct (truthy (dict_get d "address")) eqn:Ha; cbn [negb];
    [|left; split_and!; [done..| by intros ? [= <-]]].
  right. by exists d.
Qed.

(** X12: [POST /api/delivery/update] with the valid key and a body whose
    [order_id] and [address] are both true as conditions: 201 with a new
    delivery carrying the two values and the status READY_FOR_DISPATCH,
    appended to the delivery ledger; the inventory and the sales ledger
    are as they were, and the sales ledger is not consulted: the
    [order_id] need not be that of any order. *)
Theorem update_delivery_created request s d :
  x_api_key request = Some API_KEY →
  get_json request = JDict d →
  truthy (dict_get d "order_id") = true →
  truthy (dict_get d "address") = true →
  let r := view API_KEY uuid4_str POST_api_delivery_update request s in
  let delivery :=
    JDict [("delivery_id", JStr (uuid4_str (uuid_calls s)));
           ("order_id", dict_get d "order_id");
           ("address", dict_get d "address");
           ("status", JStr "READY_FOR_DISPATCH")] in
  outcome r = Ok (mkResponse delivery 201) ∧
  deliveries (final r) = deliveries s ++ [delivery] ∧
  inventory (final r) = inventory s ∧ sales (final r) = sales s.
Proof.
  intros Hkey Hd Ho Ha r delivery. subst r delivery. cbn [view].
  rewrite (require_api_key_valid API_KEY _ _ Hkey).
  assert (d ≠ []) as Hne.
  { intros ->. discriminate Ho. }
  rewrite (update_delivery_dict request s d Hd Hne). cbn zeta.
  by rewrite Ho, Ha.
Qed.

(** X13: [POST /api/delivery/update] with the valid key and an object
    body in which [order_id] or [address] is absent or false as a
    condition: the answer is a 400, "JSON body is required" for the
    empty object and "Missing fields: order_id, address" for any other;
    nothing is written and no identifier is drawn. *)
Theorem update_delivery_missing_fields request s d :
  x_api_key request = Some API_KEY →
  get_json request = JDict d →
  truthy (dict_get d "order_id") = false ∨
  truthy (dict_get d "address") = false →
  view API_KEY uuid4_str POST_api_delivery_update request s =
    mkRun (Ok (mkResponse
                 (JDict [("error",
                          JStr (match d with
                                | [] => "JSON body is required"
                                | _ => "Missing fields: order_id, address"
                                end))])
                 400)) s [].
Proof.
  intros Hkey Hd Hmiss. cbn [view].
  rewrite (require_api_key_valid API_KEY _ _ Hkey).
  destruct d as [|kv d'] eqn:Hdd.
  { unfold update_delivery. by rewrite Hd. }
  rewrite <- Hdd in *.
  assert (d ≠ []) as Hne by (by rewrite Hdd).
  rewrite (update_delivery_dict request s d Hd Hne). cbn zeta.
  destruct Hmiss as [-> | ->]; [done|].
  by destruct (truthy (dict_get d "order_id")).
Qed.

(** X14: [record_delivery] on its own checks nothing but the presence of the
    two keys: an object lacking one raises [KeyError], anything that is
    no object raises [TypeError], and an object having both is stored
    with the values as they are, even empty ones, at the end of the
    ledger. *)
Theorem record_delivery_service deliveries0 uuid data :
  (∀ d, data = JDict d →
        dict_lookup d "order_id" = None ∨ dict_lookup d "address" = None →
        DeliveryService.record_delivery deliveries0 uuid data
          = Raise KeyError) ∧
  ((∀ d, data ≠ JDict d) →
   DeliveryService.record_delivery deliveries0 uuid data = Raise TypeError) ∧
  (∀ d order_id address,
     data = JDict d →
     dict_lookup d "order_id" = Some order_id →
     dict_lookup d "address" = Some address →
     DeliveryService.record_delivery deliveries0 uuid data =
       Ok (new_delivery uuid order_id address,
           deliveries0 ++ [new_delivery uuid order_id address])).
Proof.
  unfold DeliveryService.record_delivery, py_getitem. split_and!.
  - intros d -> [Ho | Ha].
    + by rewrite Ho.
    + rewrite Ha. by destruct (dict_lookup d "order_id").
  - intros Hnd. destruct data as [| | | | | |d]; try done. by destruct (Hnd d).
  - intros d order_id address -> Ho Ha. by rewrite Ho, Ha.
Qed.

(** X15: A handler that raises [AttributeError] or [TypeError] has
    written nothing: the state is as it was and no other state was gone
    through.  [KeyError] is never raised: [update_delivery] has checked
    both fields before [record_delivery] subscripts them. *)
Theorem raise_leaves_state route request s e :
  outcome (view API_KEY uuid4_str route request s) = Raise e →
  e ≠ KeyError ∧
  (e = AttributeError ∨ e = TypeError →
   final (view API_KEY uuid4_str route request s) = s ∧
   trace (view API_KEY uuid4_str route request s) = []).
Proof.
  destruct route as [|book_id| | |]; cbn [view]; unfold require_api_key;
    try discriminate;
    destruct (bool_decide (x_api_key request ≠ Some API_KEY));
    try discriminate.
  - intros H. unfold get_book_details, inventory_get_book in H.
    rewrite (bind_pure _ _ s
               (InventoryService.get_book (inventory s) (JStr book_id)))
      in H by reflexivity.
    by destruct (InventoryService.get_book _ _) as [[i b]|].
  - destruct (place_order_cases uuid4_str request s)
      as [(Hf & Ht & _ & Hexn) | (d & i & b & _ & _ & _ & _ & Hrun)].
    + intros Hr. destruct (Hexn _ Hr) as [-> | ->]; by split.
    + cbn zeta in Hrun. destruct Hrun as [(new & _ & ->) | (_ & ->)];
        [discriminate|].
      intros [= <-]. split; [done|]. by intros [? | ?].
  - destruct (update_delivery_cases request s)
      as [(Hf & Ht & H400) | (d & _ & _ & _ & ->)]; [|discriminate].
    intros Hr. split; [|done].
    destruct (truthy (get_json request)) eqn:Htr.
    2: { unfold update_delivery in Hr. rewrite Htr in Hr. discriminate. }
    destruct (get_json request) as [| | | | | |d] eqn:Hd.
    1-6: rewrite (post_not_dict_run POST_api_delivery_update request s eq_refl)
           in Hr by (rewrite ?Hd; done);
         by injection Hr as <-.
    assert (d ≠ []) as Hne by (by destruct d).
    rewrite (update_delivery_dict request s d Hd Hne) in Hr. cbn zeta in Hr.
    by destruct (negb _ || negb _).
Qed.

(** X20: [place_order] is not atomic: when it raises [OverflowError],
    which the stock write does when the stock and the quantity are an
    [int] and a float and the [int] is too large to be converted, the
    order is already in the sales ledger, carrying the quantity of the
    request, while the inventory is as it was. *)
Theorem place_order_overflow_after_append request s :
  outcome (view API_KEY uuid4_str POST_api_orders request s)
    = Raise OverflowError →
  ∃ d order i b,
    get_json request = JDict d ∧
    sales (final (view API_KEY uuid4_str POST_api_orders request s)) =
      sales s ++ [order] ∧
    py_getitem order "quantity" = Ok (dict_get d "quantity") ∧
    py_getitem order "status" = Ok (JStr "PAID") ∧
    inventory (final (view API_KEY uuid4_str POST_api_orders request s)) =
      inventory s ∧
    InventoryService.get_book (inventory s) (dict_get d "book_id")
      = Some (i, b) ∧
    InventoryService.is_in_stock (inventory s) (dict_get d "book_id")
      (dict_get d "quantity") = Ok (JBool true) ∧
    InventoryService.reduce_stock (inventory s) (dict_get d "book_id")
      (dict_get d "quantity") = Raise OverflowError.
Proof.
  cbn [view]. unfold require_api_key.
  destruct (bool_decide _); [discriminate|].
  destruct (place_order_cases uuid4_str request s)
    as [(_ & _ & _ & Hexn) | (d & i & b & Hd & _ & Hb & Hge & Hrun)].
  { intros Hr. by destruct (Hexn _ Hr). }
  cbn zeta in Hrun. destruct Hrun as [(new & _ & ->) | (Hsub & ->)];
    [discriminate|].
  intros _. eexists d, _, i, b.
  cbn [final order_recorded order_drawn set_sales set_uuid_calls sales
       inventory].
  unfold InventoryService.is_in_stock, InventoryService.reduce_stock.
  rewrite Hb, Hge, Hsub. by split_and!.
Qed.

(** What one request can do to the state: nothing, one order with its
    stock write, one order without it, or one delivery. *)
Lemma view_step route request s :
  let r := view API_KEY uuid4_str route request s in
  (final r = s ∧ ∀ resp, outcome r = Ok resp → code resp ≠ 201%Z) ∨
  (∃ d i b,
     let order :=
       SalesService.new_order (uuid4_str (uuid_calls s))
         (dict_get d "book_id") (dict_get d "quantity")
         (dict_get d "customer") in
     route = POST_api_orders ∧
     get_json request = JDict d ∧
     InventoryService.get_book (inventory s) (dict_get d "book_id")
       = Some (i, b) ∧
     py_ge (stock b) (dict_get d "quantity") = Ok true ∧
     ((∃ new,
         py_sub (stock b) (dict_get d "quantity") = Ok new ∧
         outcome r = Ok (mkResponse order 201) ∧
         final r = order_stocked s order i b new) ∨
      (outcome r = Raise OverflowError ∧
       final r = order_recorded s order))) ∨
  (∃ d,
     let delivery :=
       new_delivery (uuid4_str (uuid_calls s))
         (dict_get d "order_id") (dict_get d "address") in
     route = POST_api_delivery_update ∧
     outcome r = Ok (mkResponse delivery 201) ∧
     final r = set_deliveries (order_drawn s) (deliveries s ++ [delivery])).
Proof.
  intros r. subst r.
  destruct route as [|book_id| | |]; cbn [view]; unfold require_api_key.
  1-4: destruct (bool_decide (x_api_key request ≠ Some API_KEY));
    [left; split; [done | by intros ? [= <-]]|].
  - left. split; [done | by intros ? [= <-]].
  - left. destruct (get_book_details_run book_id request s) as [-> _].
    split; [done|]. intros resp.
    unfold get_book_details, inventory_get_book.
    rewrite (bind_pure _ _ s
               (InventoryService.get_book (inventory s) (JStr book_id)))
      by reflexivity.
    destruct (InventoryService.get_book _ _) as [[i b]|]; by intros [= <-].
  - destruct (place_order_cases uuid4_str request s)
      as [(Hf & _ & H400 & _) | (d & i & b & Hd & _ & Hb & Hge & Hrun)].
    + left. split; [done|]. intros resp Hr. rewrite (H400 _ Hr). done.
    + right. left. exists d, i, b. cbn zeta in *.
      split_and!; [done..|].
      destruct Hrun as [(new & Hsub & ->) | (_ & ->)];
        [left; by exists new | by right].
  - destruct (update_delivery_cases request s)
      as [(Hf & _ & H400) | (d & _ & _ & _ & ->)].
    + left. split; [done|]. intros resp Hr. rewrite (H400 _ Hr). done.
    + right. right. by exists d.
  - left. split; [done | by intros ? [= <-]].
Qed.

Lemma total_ordered_snoc orders order :
  total_ordered (orders ++ [order])
  = (total_ordered orders + order_quantity order)%Z.
Proof.
  induction orders as [|o orders IH]; cbn.
  - lia.
  - fold (total_ordered (orders ++ [order])). rewrite IH.
    unfold total_ordered. lia.
Qed.

Lemma catalogue_set_stock inv i b (new : PyNum) :
  inv !! i = Some b →
  catalogue_entry <$> <[i := set_stock b new]> inv = catalogue_entry <$> inv.
Proof.
  intros Hi. rewrite list_fmap_insert. apply list_insert_id.
  by rewrite list_lookup_fmap, Hi.
Qed.

(** X16: Over any run the two ledgers only grow at their end, by at
    most one entry per request between them, and the catalogue is fixed:
    no book is added, removed or moved, and no id, title or other field
    of a book changes; only stocks do. *)
Theorem ledgers_append_only calls s :
  let s' := serve API_KEY uuid4_str s calls in
  sales s `prefix_of` sales s' ∧
  deliveries s `prefix_of` deliveries s' ∧
  length (sales s') + length (deliveries s')
    ≤ length (sales s) + length (deliveries s) + length calls ∧
  catalogue_entry <$> inventory s' = catalogue_entry <$> inventory s.
Proof.
  cbn zeta. revert s.
  induction calls as [|[route request] calls IH]; intros s.
  { cbn. split_and!; [reflexivity | reflexivity | lia | reflexivity]. }
  cbn [serve foldl]. change (foldl (serve1 API_KEY uuid4_str) ?x calls)
    with (serve API_KEY uuid4_str x calls).
  destruct (IH (serve1 API_KEY uuid4_str s (route, request)))
    as (Hs & Hd & Hlen & Hcat).
  unfold serve1 in *. cbn [fst snd length] in *.
  destruct (view_step route request s)
    as [[Hf _] | [(d & i & b & _ & _ & Hb & _ & Hrun) | (d & _ & _ & Hf)]].
  - rewrite Hf in *. split_and!; [done | done | lia | done].
  - cbn zeta in Hrun. destruct Hrun as [(new & _ & _ & Hf) | (_ & Hf)];
      rewrite Hf in *;
      cbn [order_stocked order_recorded order_drawn set_inventory set_sales
           set_uuid_calls inventory sales deliveries] in *;
      rewrite ?(catalogue_set_stock _ _ _ _ (get_book_lookup _ _ _ _ Hb))
        in Hcat;
      rewrite length_app in Hlen; cbn in Hlen;
      (split_and!; [by eapply prefix_app_l | done | lia | done]).
  - rewrite Hf in *.
    cbn [order_drawn set_deliveries set_uuid_calls inventory sales
         deliveries] in *.
    rewrite length_app in Hlen. cbn in Hlen.
    split_and!; [done | by eapply prefix_app_l | lia | done].
Qed.

(** X17: Over any run that starts with integer stocks, none below 0,
    and in which no order carries a float as its quantity, the copies in
    stock and the copies sold add up to the same number: each accepted
    order moves its quantity from the stock of one book to the sales
    ledger, and nothing else touches either. *)
Theorem stock_plus_ordered_constant calls s :
  stock_int_nonneg s →
  Forall (λ c, c.1 = POST_api_orders → quantity_no_float c.2) calls →
  let s' := serve API_KEY uuid4_str s calls in
  (total_stock (inventory s') + total_ordered (sales s'))%Z
  = (total_stock (inventory s) + total_ordered (sales s))%Z.
Proof.
  cbn zeta. intros Hs Hcalls. revert s Hs.
  induction Hcalls as [|[route request] calls Hc _ IH]; intros s Hs; [done|].
  cbn [serve foldl]. change (foldl (serve1 API_KEY uuid4_str) ?x calls)
    with (serve API_KEY uuid4_str x calls).
  rewrite IH.
  2: { apply (view_stock_int_nonneg API_KEY uuid4_str route request s Hs Hc). }
  unfold serve1. cbn [fst snd] in *.
  destruct (view_step route request s)
    as [[Hf _] | [(d & i & b & -> & Hd & Hb & Hge & Hrun) | (d & _ & _ & Hf)]];
    [by rewrite Hf | | by rewrite Hf].
  cbn zeta in Hrun.
  pose proof (get_book_lookup _ _ _ _ Hb) as Hi.
  destruct (proj1 (Forall_lookup _ _) Hs i b Hi) as (n0 & Hst & _).
  destruct (accepted_int _ _ n0 Hst (λ f, Hc eq_refl d f Hd) Hge)
    as (q & Hq & _ & Hsub).
  destruct Hrun as [(new & Hsub' & _ & Hf) | (Hr & _)].
  2: { exfalso. cbn [view] in Hr. unfold require_api_key in Hr.
       destruct (bool_decide _); [discriminate|].
       destruct (place_order_cases uuid4_str request s)
         as [(_ & _ & _ & Hexn) | (d' & i' & b' & Hd' & _ & Hb' & _ & Hrun)].
       - by destruct (Hexn _ Hr).
       - rewrite Hd in Hd'. injection Hd' as <-. rewrite Hb in Hb'.
         injection Hb' as <- <-. cbn zeta in Hrun.
         destruct Hrun as [(? & _ & Hrun) | (Hsub' & _)];
           [by rewrite Hrun in Hr | congruence]. }
  rewrite Hsub in Hsub'. injection Hsub' as <-. rewrite Hf.
  cbn [order_stocked order_recorded order_drawn set_inventory set_sales
       set_uuid_calls inventory sales].
  rewrite (total_stock_insert _ _ _ n0 q Hi Hst).
  rewrite total_ordered_snoc.
  unfold order_quantity at 1. cbn [SalesService.new_order py_getitem].
  cbn. rewrite Hq. cbn. lia.
Qed.

(** The counter of identifiers never goes back. *)
Lemma serve_uuid_calls_mono calls s :
  uuid_calls s ≤ uuid_calls (serve API_KEY uuid4_str s calls).
Proof.
  revert s. induction calls as [|[route request] calls IH]; intros s; [done|].
  cbn [serve foldl]. change (foldl (serve1 API_KEY uuid4_str) ?x calls)
    with (serve API_KEY uuid4_str x calls).
  etrans; [|apply IH]. unfold serve1. cbn [fst snd].
  destruct (view_step route request s)
    as [[Hf _] | [(d & i & b & _ & _ & _ & _ & Hrun) | (d & _ & _ & Hf)]].
  - by rewrite Hf.
  - cbn zeta in Hrun. destruct Hrun as [(new & _ & _ & Hf) | (_ & Hf)];
      rewrite Hf; cbn; lia.
  - rewrite Hf; cbn; lia.
Qed.

(** X18: As long as [uuid4] does not repeat itself, two records created
    in one run, orders or deliveries, however many requests lie between
    them, are returned with different identifiers. *)
Theorem generated_ids_distinct route1 request1 resp1 calls
    route2 request2 resp2 s :
  Inj (=) (=) uuid4_str →
  outcome (view API_KEY uuid4_str route1 request1 s) = Ok resp1 →
  code resp1 = 201%Z →
  let s' :=
    serve API_KEY uuid4_str
      (final (view API_KEY uuid4_str route1 request1 s)) calls in
  outcome (view API_KEY uuid4_str route2 request2 s') = Ok resp2 →
  code resp2 = 201%Z →
  ∃ id1 id2,
    py_getitem (body resp1) (id_field route1) = Ok (JStr id1) ∧
    py_getitem (body resp2) (id_field route2) = Ok (JStr id2) ∧
    id1 ≠ id2.
Proof.
  intros Hinj Hr1 Hc1 s' Hr2 Hc2.
  assert (∀ route request s0 resp,
    outcome (view API_KEY uuid4_str route request s0) = Ok resp →
    code resp = 201%Z →
    py_getitem (body resp) (id_field route)
      = Ok (JStr (uuid4_str (uuid_calls s0))) ∧
    uuid_calls (final (view API_KEY uuid4_str route request s0))
      = S (uuid_calls s0)) as Hcreated.
  { intros route request s0 resp Hr Hc.
    destruct (view_step route request s0)
      as [[_ Hno] | [(d & i & b & -> & _ & _ & _ & Hrun)
                    | (d & -> & Ho & Hf)]].
    - by destruct (Hno _ Hr).
    - cbn zeta in Hrun. destruct Hrun as [(new & _ & Ho & Hf) | (Ho & _)];
        [|congruence].
      rewrite Ho in Hr. injection Hr as <-. by rewrite Hf.
    - rewrite Ho in Hr. injection Hr as <-. by rewrite Hf. }
  destruct (Hcreated _ _ _ _ Hr1 Hc1) as [Hid1 Hn1].
  destruct (Hcreated _ _ _ _ Hr2 Hc2) as [Hid2 _].
  eexists _, _. split_and!; [exact Hid1 | exact Hid2 |].
  intros Heq%Hinj.
  pose proof (serve_uuid_calls_mono calls
                (final (view API_KEY uuid4_str route1 request1 s))) as Hmono.
  fold s' in Hmono. lia.
Qed.

(** X19: [get_book] compares ids as Python compares a string with a value:
    a [book_id] that is no string (a number, [null], a list) matches no
    book; among books sharing an id the first of the list is returned,
    with its position. *)
Theorem get_book_first_match inv :
  (∀ book_id, (∀ str, book_id ≠ JStr str) →
              InventoryService.get_book inv book_id = None) ∧
  (∀ pre b post,
     inv = pre ++ b :: post →
     (∀ b', b' ∈ pre → id b' ≠ id b) →
     InventoryService.get_book inv (JStr (id b)) = Some (length pre, b)).
Proof.
  split.
  - intros book_id Hns. apply get_book_None. intros b _ Heq.
    by apply (Hns (id b)).
  - intros pre b post -> Hpre. apply get_book_Some. split_and!.
    + by rewrite list_lookup_middle.
    + done.
    + intros j b' Hj Hlt. apply Hpre.
      rewrite lookup_app_l in Hj by done. by eapply list_elem_of_lookup_2.
Qed.

End Further.

(** ** The example of the specification, and instances of the theorems *)

Example order_all_copies :
  let r := view example_key example_uuid4 POST_api_orders
             (order_request "b1" 5 "alice") example_seed in
  outcome r =
    Ok (mkResponse
          (SalesService.new_order "uuid-0" (JStr "b1") (JInt 5) (JStr "alice"))
          201) ∧
  stock <$> inventory (final r) = [PInt 0] ∧
  outcome (view example_key example_uuid4 POST_api_orders
             (order_request "b1" 5 "alice") (final r)) =
    Ok insufficient_stock.
Proof. vm_compute. done. Qed.

Example order_negative_quantity :
  let r := view example_key example_uuid4 POST_api_orders
             (order_request "b1" (-3) "alice") example_seed in
  outcome r =
    Ok (mkResponse
          (SalesService.new_order "uuid-0" (JStr "b1") (JInt (-3))
             (JStr "alice"))
          201) ∧
  stock <$> inventory (final r) = [PInt 8].
Proof. vm_compute. done. Qed.

(** Two and a half copies: accepted, and the stock is a float from
    then on. *)
Example order_float_quantity :
  let r := view example_key example_uuid4 POST_api_orders
             (order_request_json "b1" (JFloat (float_lit 5 (-1))) "alice")
             example_seed in
  outcome r =
    Ok (mkResponse
          (SalesService.new_order "uuid-0" (JStr "b1")
             (JFloat (float_lit 5 (-1))) (JStr "alice"))
          201) ∧
  stock <$> inventory (final r) = [PFloat (float_lit 5 (-1))].
Proof. vm_compute. done. Qed.

(** Minus infinity copies, then infinity: the stock is infinite, then
    NaN. *)
Example order_infinite_quantities :
  stock <$> inventory
    (serve example_key example_uuid4 example_seed (take 1 infinite_calls))
    = [PFloat PrimFloat.infinity] ∧
  stock <$> inventory
    (serve example_key example_uuid4 example_seed infinite_calls)
    = [PFloat PrimFloat.nan].
Proof. vm_compute. done. Qed.


(** C4 as stated does not hold: an order for -3 copies of [b1] is
    accepted and stored with the quantity -3. *)
Lemma order_quantity_not_positive :
  ¬ order_quantity_positive example_key example_uuid4.
Proof.
  intros H.
  destruct (H (order_request "b1" (-3) "alice") example_seed _
              eq_refl eq_refl) as (q & Hq & Hpos).
  vm_compute in Hq. injection Hq as <-. lia.
Qed.


Lemma place_order_insufficient_witness :
  let r := view example_key example_uuid4 POST_api_orders
             (order_request "b1" 9 "bob") example_seed in
  final r = example_seed ∧ trace r = [] ∧
  (x_api_key (order_request "b1" 9 "bob") = Some example_key →
   py_all [JStr "b1"; JInt 9; JStr "bob"] = true →
   outcome r =
     Ok (mkResponse (JDict [("error", JStr "Insufficient stock")]) 400)).
Proof.
  apply (place_order_insufficient example_key example_uuid4
           (order_request "b1" 9 "bob") example_seed
           [("book_id", JStr "b1"); ("quantity", JInt 9);
            ("customer", JStr "bob")]);
    [reflexivity|].
  right. exists 0, example_book, 5%Z, 9%Z.
  split; [reflexivity | split; [reflexivity | split; reflexivity]].
Defined.


Lemma order_quantity_accepted_witness :
  let request := order_request "b1" (-3) "alice" in
  let order :=
    SalesService.new_order "uuid-0" (JStr "b1") (JInt (-3)) (JStr "alice") in
  ∃ d i b,
    get_json request = JDict d ∧
    py_getitem order "quantity" = Ok (dict_get d "quantity") ∧
    truthy (dict_get d "quantity") = true ∧
    InventoryService.get_book (inventory example_seed) (dict_get d "book_id")
      = Some (i, b) ∧
    py_ge (stock b) (dict_get d "quantity") = Ok true ∧
    (∀ n q, stock b = PInt n →
            as_int (dict_get d "quantity") = Some q →
            q ≠ 0%Z ∧ (q ≤ n)%Z).
Proof.
  apply (order_quantity_accepted example_key example_uuid4
           (order_request "b1" (-3) "alice") example_seed
           (SalesService.new_order "uuid-0" (JStr "b1") (JInt (-3))
              (JStr "alice"))).
  reflexivity.
Defined.


Lemma order_recorded_before_stock_witness :
  let request := order_request "b1" 2 "carol" in
  let r := view example_key example_uuid4 POST_api_orders request
             example_seed in
  let order :=
    SalesService.new_order "uuid-0" (JStr "b1") (JInt 2) (JStr "carol") in
  ∃ s1 s2 s3,
    trace r = [s1; s2; s3] ∧ final r = s3 ∧
    (sales s1 = sales example_seed ∧ inventory s1 = inventory example_seed) ∧
    (sales s2 = sales example_seed ++ [order] ∧
     inventory s2 = inventory example_seed) ∧
    sales s3 = sales example_seed ++ [order] ∧
    (∃ d i b b' new,
       get_json request = JDict d ∧
       InventoryService.get_book (inventory example_seed)
         (dict_get d "book_id") = Some (i, b) ∧
       py_sub (stock b) (dict_get d "quantity") = Ok new ∧
       inventory s3 !! i = Some b' ∧ stock b' = new ∧
       (∀ j, j ≠ i → inventory s3 !! j = inventory example_seed !! j) ∧
       (∀ n q, stock b = PInt n →
               as_int (dict_get d "quantity") = Some q →
               stock b' = PInt (n - q) ∧
               inventory s3 ≠ inventory example_seed)) ∧
    ∀ s', s' ∈ trace r →
          inventory s' ≠ inventory example_seed → order ∈ sales s'.
Proof.
  apply (order_recorded_before_stock example_key example_uuid4
           (order_request "b1" 2 "carol") example_seed
           (mkResponse
              (SalesService.new_order "uuid-0" (JStr "b1") (JInt 2)
                 (JStr "carol")) 201));
    reflexivity.
Defined.

Lemma place_order_failures_alike_witness :
  outcome (view example_key example_uuid4 POST_api_orders
             (order_request "b9" 1 "dave") example_seed) =
    outcome (view example_key example_uuid4 POST_api_orders
               (order_request "b1" 9 "bob") example_seed) ∧
  outcome (view example_key example_uuid4 POST_api_orders
             (order_request "b9" 1 "dave") example_seed) =
    Ok (mkResponse (JDict [("error", JStr "Insufficient stock")]) 400).
Proof.
  apply (place_order_failures_alike example_key example_uuid4
           (order_request "b9" 1 "dave") example_seed
           [("book_id", JStr "b9"); ("quantity", JInt 1);
            ("customer", JStr "dave")]
           (order_request "b1" 9 "bob") example_seed
           [("book_id", JStr "b1"); ("quantity", JInt 9);
            ("customer", JStr "bob")]
           0 example_book 5%Z 9%Z);
    try reflexivity.
  intros b Hb. apply list_elem_of_singleton in Hb. rewrite Hb. discriminate.
Defined.

Lemma unauthorized_no_effect_witness :
  view example_key example_uuid4 POST_api_orders
    (mkRequest (Some "guess")
       (order_body (JStr "b1") (JInt 1) (JStr "eve"))) example_seed =
  mkRun (Ok unauthorized) example_seed [].
Proof.
  apply (proj1 (unauthorized_no_effect example_key example_uuid4));
    [reflexivity|].
  right. exists "guess". split; [reflexivity | discriminate].
Defined.


Lemma place_order_falsy_field_witness :
  view example_key example_uuid4 POST_api_orders
    (order_request "b1" 0 "alice") example_seed =
  mkRun (Ok missing_fields) example_seed [] ∧
  ∀ request' s' d',
    x_api_key request' = Some example_key →
    get_json request' = JDict d' → d' ≠ [] →
    dict_lookup d' "quantity" = None →
    outcome (view example_key example_uuid4 POST_api_orders request' s') =
      outcome (view example_key example_uuid4 POST_api_orders
                 (order_request "b1" 0 "alice") example_seed).
Proof.
  apply (place_order_falsy_field example_key example_uuid4
           (order_request "b1" 0 "alice") example_seed
           [("book_id", JStr "b1"); ("quantity", JInt 0);
            ("customer", JStr "alice")]
           "quantity" (JInt 0));
    try reflexivity.
  unfold order_fields. apply elem_of_cons. right. apply elem_of_cons. by left.
Defined.

(** ** Instances of the further properties *)

Lemma example_uuid4_inj : Inj (=) (=) example_uuid4.
Proof.
  intros n m H. unfold example_uuid4 in H. cbn in H.
  injection H as H. apply (pretty_nat_inj n m). exact H.
Qed.

Lemma place_order_created_iff_witness :
  ∃ resp,
    outcome (view example_key example_uuid4 POST_api_orders
               (order_request "b1" 2 "carol") example_seed) = Ok resp ∧
    code resp = 201%Z.
Proof.
  apply (proj2 (proj2 (place_order_created_iff example_key example_uuid4
                         (order_request "b1" 2 "carol") example_seed)
                  [("book_id", JStr "b1"); ("quantity", JInt 2);
                   ("customer", JStr "carol")]
                  0 example_book 5%Z 2%Z
                  eq_refl eq_refl eq_refl eq_refl)).
  split_and!; [reflexivity | reflexivity | lia].
Defined.

Lemma place_order_accepted_effect_witness :
  let request :=
    mkRequest (Some example_key)
      (order_body (JStr "b1") (JInt (-3)) (JInt 42)) in
  let r := view example_key example_uuid4 POST_api_orders request
             example_seed in
  ∃ order b',
    outcome r = Ok (mkResponse order 201) ∧
    py_getitem order "book_id" = Ok (JStr "b1") ∧
    py_getitem order "quantity" = Ok (JInt (-3)) ∧
    py_getitem order "customer" = Ok (JInt 42) ∧
    py_getitem order "status" = Ok (JStr "PAID") ∧
    sales (final r) = sales example_seed ++ [order] ∧
    inventory (final r) !! 0 = Some b' ∧
    stock b' = PInt (5 - -3) ∧
    (∀ j, j ≠ 0 → inventory (final r) !! j = inventory example_seed !! j) ∧
    deliveries (final r) = deliveries example_seed ∧
    ((-3 < 0)%Z → (5 < 5 - -3)%Z).
Proof.
  apply (place_order_accepted_effect example_key example_uuid4
           (mkRequest (Some example_key)
              (order_body (JStr "b1") (JInt (-3)) (JInt 42)))
           example_seed
           [("book_id", JStr "b1"); ("quantity", JInt (-3));
            ("customer", JInt 42)]
           0 example_book 5%Z (-3)%Z);
    first [reflexivity | lia].
Defined.

Lemma post_empty_body_witness :
  view example_key example_uuid4 POST_api_delivery_update
    (mkRequest (Some example_key) (JDict [])) example_seed =
  mkRun (Ok missing_body) example_seed [].
Proof.
  apply (post_empty_body example_key example_uuid4 POST_api_delivery_update
           (mkRequest (Some example_key) (JDict [])) example_seed);
    reflexivity.
Defined.

Lemma post_body_not_object_witness :
  view example_key example_uuid4 POST_api_orders
    (mkRequest (Some example_key) (JList [JStr "b1"; JInt 1])) example_seed =
  mkRun (Raise AttributeError) example_seed [].
Proof.
  apply (post_body_not_object example_key example_uuid4 POST_api_orders
           (mkRequest (Some example_key) (JList [JStr "b1"; JInt 1]))
           example_seed);
    [reflexivity | reflexivity | reflexivity | discriminate].
Defined.

Lemma place_order_quantity_not_number_witness :
  view example_key example_uuid4 POST_api_orders
    (order_request_json "b1" (JStr "2") "alice") example_seed =
  mkRun (Raise TypeError) example_seed [].
Proof.
  apply (place_order_quantity_not_number example_key example_uuid4
           (order_request_json "b1" (JStr "2") "alice") example_seed
           [("book_id", JStr "b1"); ("quantity", JStr "2");
            ("customer", JStr "alice")]);
    reflexivity.
Defined.

Lemma inventory_raises_iff_witness :
  InventoryService.reduce_stock [example_book] (JStr "b1") (JStr "2")
    = Raise TypeError.
Proof.
  apply (proj2 (proj1 (proj2 (proj2 (inventory_raises_iff [example_book]
                                       (JStr "b1") (JStr "2")))))).
  split; [by eexists | reflexivity].
Defined.

Lemma reduce_stock_unchecked_witness :
  ∃ inv' b',
    InventoryService.reduce_stock [example_book] (JStr "b1") (JInt 7)
      = Ok inv' ∧
    InventoryService.get_book inv' (JStr "b1") = Some (0, b') ∧
    stock b' = PInt (5 - 7) ∧ (5 - 7 < 0)%Z ∧
    InventoryService.is_in_stock [example_book] (JStr "b1") (JInt 7)
      = Ok (JBool false).
Proof.
  apply (reduce_stock_unchecked [example_book] (JStr "b1") (JInt 7)
           0 example_book 5%Z 7%Z);
    reflexivity.
Defined.

Lemma get_book_details_found_or_404_witness :
  let r := view example_key example_uuid4 (GET_api_books_id "b1")
             (mkRequest (Some example_key) JNull) example_seed in
  final r = example_seed ∧ trace r = [] ∧
  (∀ i b,
     InventoryService.get_book (inventory example_seed) (JStr "b1")
       = Some (i, b) →
     outcome r = Ok (mkResponse (book_json b) 200) ∧ id b = "b1") ∧
  (outcome r = Ok (mkResponse (JDict [("error", JStr "Book not found")]) 404)
   ↔ ∀ b, b ∈ inventory example_seed → id b ≠ "b1").
Proof.
  apply (get_book_details_found_or_404 example_key example_uuid4 "b1"
           (mkRequest (Some example_key) JNull) example_seed).
  reflexivity.
Defined.

Lemma get_routes_read_only_witness :
  let r := view example_key example_uuid4 GET_api_books
             (mkRequest (Some example_key) JNull) example_seed in
  final r = example_seed ∧ trace r = [] ∧
  view example_key example_uuid4 GET_api_books
    (mkRequest (Some example_key) JNull) (final r) = r.
Proof.
  apply (get_routes_read_only example_key example_uuid4 GET_api_books
           (mkRequest (Some example_key) JNull) example_seed).
  reflexivity.
Defined.

Lemma place_order_then_get_book_witness :
  ∃ book,
    outcome
      (view example_key example_uuid4 (GET_api_books_id "b1")
         (mkRequest (Some example_key) JNull)
         (final (view example_key example_uuid4 POST_api_orders
                   (order_request "b1" 2 "carol") example_seed))) =
      Ok (mkResponse book 200) ∧
    py_getitem book "stock" = Ok (JInt (5 - 2)) ∧
    py_getitem book "id" = Ok (JStr "b1") ∧
    py_getitem book "title" = Ok (JStr "Book One").
Proof.
  apply (place_order_then_get_book example_key example_uuid4
           (order_request "b1" 2 "carol")
           (mkRequest (Some example_key) JNull) example_seed
           [("book_id", JStr "b1"); ("quantity", JInt 2);
            ("customer", JStr "carol")]
           0 example_book 5%Z 2%Z);
    first [reflexivity | lia].
Defined.

Lemma place_order_twice_witness :
  let s' := final (view example_key example_uuid4 POST_api_orders
                     (order_request "b1" 2 "carol") example_seed) in
  view example_key example_uuid4 POST_api_orders
    (order_request "b1" 4 "dave") s' =
  mkRun (Ok insufficient_stock) s' [].
Proof.
  apply (place_order_twice example_key example_uuid4
           (order_request "b1" 2 "carol") (order_request "b1" 4 "dave")
           example_seed
           [("book_id", JStr "b1"); ("quantity", JInt 2);
            ("customer", JStr "carol")]
           [("book_id", JStr "b1"); ("quantity", JInt 4);
            ("customer", JStr "dave")]
           0 example_book 5%Z 2%Z 4%Z);
    first [reflexivity | lia].
Defined.

Lemma update_delivery_created_witness :
  let r := view example_key example_uuid4 POST_api_delivery_update
             (delivery_request (JStr "no-such-order") (JStr "1 Main St"))
             example_seed in
  let delivery :=
    JDict [("delivery_id", JStr "uuid-0");
           ("order_id", JStr "no-such-order");
           ("address", JStr "1 Main St");
           ("status", JStr "READY_FOR_DISPATCH")] in
  outcome r = Ok (mkResponse delivery 201) ∧
  deliveries (final r) = deliveries example_seed ++ [delivery] ∧
  inventory (final r) = inventory example_seed ∧
  sales (final r) = sales example_seed.
Proof.
  apply (update_delivery_created example_key example_uuid4
           (delivery_request (JStr "no-such-order") (JStr "1 Main St"))
           example_seed
           [("order_id", JStr "no-such-order");
            ("address", JStr "1 Main St")]);
    reflexivity.
Defined.

Lemma update_delivery_missing_fields_witness :
  view example_key example_uuid4 POST_api_delivery_update
    (delivery_request (JStr "uuid-0") (JStr "")) example_seed =
  mkRun (Ok missing_delivery_fields) example_seed [].
Proof.
  apply (update_delivery_missing_fields example_key example_uuid4
           (delivery_request (JStr "uuid-0") (JStr "")) example_seed
           [("order_id", JStr "uuid-0"); ("address", JStr "")]);
    [reflexivity | reflexivity | by right].
Defined.

Lemma record_delivery_service_witness :
  DeliveryService.record_delivery [] "uuid-0"
    (JDict [("order_id", JStr "o1")]) = Raise KeyError.
Proof.
  apply (proj1 (record_delivery_service [] "uuid-0"
                  (JDict [("order_id", JStr "o1")]))
           [("order_id", JStr "o1")]);
    [reflexivity | by right].
Defined.

Lemma raise_leaves_state_witness :
  let r := view example_key example_uuid4 POST_api_orders
             (order_request_json "b1" (JStr "2") "alice") example_seed in
  TypeError ≠ KeyError ∧
  (TypeError = AttributeError ∨ TypeError = TypeError →
   final r = example_seed ∧ trace r = []).
Proof.
  apply (raise_leaves_state example_key example_uuid4 POST_api_orders
           (order_request_json "b1" (JStr "2") "alice") example_seed
           TypeError).
  reflexivity.
Defined.

Lemma place_order_overflow_after_append_witness :
  let s := mkState [mkBook "b1" "Book One" (PInt (10 ^ 400)) []] [] [] 0 in
  let request := order_request_json "b1" (JFloat (float_lit 3 (-1))) "alice" in
  ∃ d order i b,
    get_json request = JDict d ∧
    sales (final (view example_key example_uuid4 POST_api_orders request s)) =
      sales s ++ [order] ∧
    py_getitem order "quantity" = Ok (dict_get d "quantity") ∧
    py_getitem order "status" = Ok (JStr "PAID") ∧
    inventory (final (view example_key example_uuid4 POST_api_orders
                        request s)) = inventory s ∧
    InventoryService.get_book (inventory s) (dict_get d "book_id")
      = Some (i, b) ∧
    InventoryService.is_in_stock (inventory s) (dict_get d "book_id")
      (dict_get d "quantity") = Ok (JBool true) ∧
    InventoryService.reduce_stock (inventory s) (dict_get d "book_id")
      (dict_get d "quantity") = Raise OverflowError.
Proof.
  apply (place_order_overflow_after_append example_key example_uuid4
           (order_request_json "b1" (JFloat (float_lit 3 (-1))) "alice")
           (mkState [mkBook "b1" "Book One" (PInt (10 ^ 400)) []] [] [] 0)).
  vm_compute. reflexivity.
Defined.

Lemma stock_plus_ordered_constant_witness :
  let s' := serve example_key example_uuid4 example_seed example_calls in
  (total_stock (inventory s') + total_ordered (sales s'))%Z
  = (total_stock (inventory example_seed)
     + total_ordered (sales example_seed))%Z.
Proof.
  apply (stock_plus_ordered_constant example_key example_uuid4 example_calls
           example_seed).
  - unfold stock_int_nonneg. simpl. repeat constructor.
    exists 5%Z. split; [reflexivity | lia].
  - unfold example_calls, quantity_no_float.
    repeat constructor; simpl; intros Hroute d f Hd;
      first [discriminate Hroute | discriminate Hd
            | (injection Hd as <-; discriminate)].
Defined.

Lemma generated_ids_distinct_witness :
  ∃ id1 id2,
    py_getitem
      (SalesService.new_order "uuid-0" (JStr "b1") (JInt 2) (JStr "carol"))
      (id_field POST_api_orders) = Ok (JStr id1) ∧
    py_getitem
      (new_delivery "uuid-1" (JStr "uuid-0") (JStr "1 Main St"))
      (id_field POST_api_delivery_update) = Ok (JStr id2) ∧
    id1 ≠ id2.
Proof.
  apply (generated_ids_distinct example_key example_uuid4
           POST_api_orders (order_request "b1" 2 "carol")
           (mkResponse
              (SalesService.new_order "uuid-0" (JStr "b1") (JInt 2)
                 (JStr "carol")) 201)
           [(GET_api_books, mkRequest None JNull)]
           POST_api_delivery_update
           (delivery_request (JStr "uuid-0") (JStr "1 Main St"))
           (mkResponse
              (new_delivery "uuid-1" (JStr "uuid-0") (JStr "1 Main St")) 201)
           example_seed);
    first [exact example_uuid4_inj | reflexivity].
Defined.

Lemma get_book_first_match_witness :
  InventoryService.get_book
    [example_book; mkBook "b2" "Book Two" (PInt 1) []; mkBook "b2" "Copy" (PInt 9) []]
    (JStr "b2")
  = Some (1, mkBook "b2" "Book Two" (PInt 1) []).
Proof.
  apply (proj2 (get_book_first_match
                  [example_book; mkBook "b2" "Book Two" (PInt 1) [];
                   mkBook "b2" "Copy" (PInt 9) []])
           [example_book] (mkBook "b2" "Book Two" (PInt 1) [])
           [mkBook "b2" "Copy" (PInt 9) []]);
    [reflexivity|].
  intros b' Hb'. apply list_elem_of_singleton in Hb'. rewrite Hb'.
  discriminate.
Defined.
